(** * Minerva home-brain: the ESP32 TFT status display client

    A shallow embedding of [esp32/nerdminer_display/nerdminer_display.ino]:
    the snapshot record [StatusState], the renderer [drawScreen], the
    fetch-and-parse routine [fetchStatus] and one iteration of [loop].

    What lives outside the sketch is taken as an input of the model:
    - the HTTP exchange and the result of ArduinoJson's [deserializeJson]
      (a parsed document, or an error such as [NoMemory] when the payload
      does not fit [JSON_BUF_SIZE]);
    - the C library ([mktime], [localtime_r], the width of [time_t]);
    - the readings of [millis()], [time(nullptr)], [tft.width()] and
      [WiFi.localIP()];
    - the macros of [config.h].
    The diagnostic [Serial] output (guarded by [MINERVA_DEBUG]) touches
    neither the snapshot nor the panel and is not modelled. *)

From Stdlib Require Import ZArith String Ascii List Lia Bool DecimalString.
From stdpp Require Import base list.
Import ListNotations.
Local Open Scope Z_scope.

(** ** Machine integers *)

Module MachineInt.

(** Two's-complement wrap-around of a signed integer of [bits] bits. *)
Definition wrap_signed (bits x : Z) : Z :=
  (x + 2 ^ (bits - 1)) mod 2 ^ bits - 2 ^ (bits - 1).

(** Wrap-around of an unsigned integer of [bits] bits. *)
Definition wrap_unsigned (bits x : Z) : Z := x mod 2 ^ bits.

(** [int] and [long] have 32 bits on the ESP32. *)
Definition INT_MIN : Z := - 2 ^ 31.
Definition INT_MAX : Z := 2 ^ 31 - 1.
Definition wrap_int (x : Z) : Z := wrap_signed 32 x.

(** [unsigned long] has 32 bits on the ESP32. *)
Definition wrap_ulong (x : Z) : Z := wrap_unsigned 32 x.

(** Saturation of [strtol], which the [%d] conversion of the C library
    goes through. *)
Definition clamp_int (x : Z) : Z :=
  if x <? INT_MIN then INT_MIN else if INT_MAX <? x then INT_MAX else x.

Definition in_signed_range (bits x : Z) : Prop :=
  - 2 ^ (bits - 1) <= x < 2 ^ (bits - 1).

End MachineInt.
Import MachineInt.

(** ** Arduino [String] and C strings *)

Module Str.

Local Open Scope string_scope.

(** The C string a [const char*] denotes: the bytes before the first NUL.
    Constructing or assigning a [String] from a [const char*] copies
    exactly these bytes. *)
Fixpoint cstr (s : string) : string :=
  match s with
  | EmptyString => EmptyString
  | String c r => if Ascii.eqb c Ascii.zero then EmptyString else String c (cstr r)
  end.

(** [String] from a [const char*]: a null pointer gives the empty string. *)
Definition String_of_cstr (p : option string) : string :=
  match p with
  | Some s => s
  | None => EmptyString
  end.

(** [String(int)]: decimal digits, with a minus sign when negative. *)
Definition String_of_int (v : Z) : string := NilZero.string_of_int (Z.to_int v).

(** [String::substring(left, right)]: the bounds are swapped when
    [left > right], and [right] is cut down to the length. *)
Definition substring (from to : nat) (s : string) : string :=
  let '(from, to) := if (to <? from)%nat then (to, from) else (from, to) in
  if (String.length s <=? from)%nat then EmptyString
  else
    let to := if (String.length s <? to)%nat then String.length s else to in
    String.substring from (to - from) s.

(** [(int)s.length()]: the length read as an [int]. *)
Definition length_int (s : string) : Z := wrap_int (Z.of_nat (String.length s)).

(** The truncation idiom of the renderer:
    [if ((int)s.length() > n) s = s.substring(0, n);] *)
Definition truncate (n : nat) (s : string) : string :=
  if (Z.of_nat n <? length_int s)%Z then substring 0 n s else s.

(** The first [n] bytes of a string (all of it when it is shorter). *)
Fixpoint prefix (n : nat) (s : string) : string :=
  match n, s with
  | S n', String c r => String c (prefix n' r)
  | _, _ => EmptyString
  end.

End Str.

(** ** JSON documents, as ArduinoJson 6 exposes them *)

Module Json.

(** A deserialized document.  A number is kept as mantissa and decimal
    exponent; the sketch never reads one.  The deserializer stores one
    slot per key, so an association list with first-match lookup
    represents an object. *)
#[warnings="-register-all"]
Inductive Json : Type :=
| JNull
| JBool (b : bool)
| JNumber (mantissa exponent : Z)
| JString (s : string)
| JArray (elems : list Json)
| JObject (members : list (string * Json)).

Fixpoint assoc (key : string) (members : list (string * Json)) : option Json :=
  match members with
  | [] => None
  | (k, v) :: rest => if String.eqb key k then Some v else assoc key rest
  end.

(** [v[key]]: the member, or a null variant when [v] is not an object or
    has no such member. *)
Definition member (key : string) (v : Json) : Json :=
  match v with
  | JObject members =>
      match assoc key members with
      | Some x => x
      | None => JNull
      end
  | _ => JNull
  end.

(** [v] has a member named [key]. *)
Definition has_member (key : string) (v : Json) : bool :=
  match v with
  | JObject members =>
      match assoc key members with
      | Some _ => true
      | None => false
      end
  | _ => false
  end.

(** [v.as<const char*>], also the implicit conversion to
    [const char*]: the string, or a null pointer for any other type. *)
Definition as_cstr (v : Json) : option string :=
  match v with
  | JString s => Some (Str.cstr s)
  | _ => None
  end.

(** [v | "default"] at type [const char*]. *)
Definition or_cstr (v : Json) (dflt : string) : string :=
  match v with
  | JString s => Str.cstr s
  | _ => dflt
  end.

(** [v | false] at type [bool]: only a JSON boolean is a [bool]. *)
Definition or_bool (v : Json) (dflt : bool) : bool :=
  match v with
  | JBool b => b
  | _ => dflt
  end.

(** [v.as<JsonArray>()], iterated: the elements, none for a non-array. *)
Definition as_array (v : Json) : list Json :=
  match v with
  | JArray elems => elems
  | _ => []
  end.

(** The conversion of an array element to [JsonObject]: a null object
    for anything that is not an object. *)
Definition as_object (v : Json) : Json :=
  match v with
  | JObject members => JObject members
  | _ => JNull
  end.

End Json.
Import Json.

(** ** [sscanf] for the format of [server_time] *)

Module Scanf.

Inductive Directive : Type :=
| ConvInt                 (* %d *)
| Lit (c : ascii).        (* an ordinary character *)

(** "%d-%d-%dT%d:%d:%d" *)
Definition server_time_format : list Directive :=
  [ConvInt; Lit "-"; ConvInt; Lit "-"; ConvInt; Lit "T";
   ConvInt; Lit ":"; ConvInt; Lit ":"; ConvInt]%char.

Definition EOF : Z := -1.

(** [isspace] in the C locale. *)
Definition isspace (c : ascii) : bool :=
  let n := nat_of_ascii c in
  ((n =? 32) || ((9 <=? n) && (n <=? 13)))%nat.

Definition digit_value (c : ascii) : option Z :=
  let n := nat_of_ascii c in
  if ((48 <=? n) && (n <=? 57))%nat then Some (Z.of_nat n - 48) else None.

Fixpoint skip_space (s : string) : string :=
  match s with
  | String c r => if isspace c then skip_space r else s
  | EmptyString => EmptyString
  end.

(** The longest run of digits at the head of [s], accumulated onto
    [acc], and what follows it. *)
Fixpoint scan_digits (acc : Z) (s : string) : Z * string :=
  match s with
  | String c r =>
      match digit_value c with
      | Some d => scan_digits (10 * acc + d) r
      | None => (acc, s)
      end
  | EmptyString => (acc, EmptyString)
  end.

(** An optionally signed decimal integer at the head of [s] (leading
    white space already skipped); [None] is a matching failure. *)
Definition scan_int (s : string) : option (Z * string) :=
  let '(negative, body) :=
    match s with
    | String "-"%char r => (true, r)
    | String "+"%char r => (false, r)
    | _ => (false, s)
    end in
  match body with
  | String c _ =>
      match digit_value c with
      | Some _ =>
          let '(v, rest) := scan_digits 0 body in
          Some (clamp_int (if negative then - v else v), rest)
      | None => None
      end
  | EmptyString => None
  end.

Definition stopped (assigned : list Z) (input_failure : bool) : Z * list Z :=
  match assigned, input_failure with
  | [], true => (EOF, [])
  | _, _ => (Z.of_nat (length assigned), assigned)
  end.

(** The return value of [sscanf] and the values it has assigned, in
    order. *)
Fixpoint scan (fmt : list Directive) (s : string) (assigned : list Z) : Z * list Z :=
  match fmt with
  | [] => stopped assigned false
  | ConvInt :: fmt' =>
      match skip_space s with
      | EmptyString => stopped assigned true
      | s1 =>
          match scan_int s1 with
          | Some (v, rest) => scan fmt' rest (assigned ++ [v])
          | None => stopped assigned false
          end
      end
  | Lit c :: fmt' =>
      match s with
      | EmptyString => stopped assigned true
      | String c' rest =>
          if Ascii.eqb c c' then scan fmt' rest assigned
          else stopped assigned false
      end
  end.

Definition sscanf (s : string) (fmt : list Directive) : Z * list Z := scan fmt s [].

End Scanf.

(** ** The C library *)

Module Libc.

(** [struct tm]. *)
Record tm : Type := Build_tm {
  tm_sec : Z;
  tm_min : Z;
  tm_hour : Z;
  tm_mday : Z;
  tm_mon : Z;
  tm_year : Z;
  tm_wday : Z;
  tm_yday : Z;
  tm_isdst : Z
}.

(** The time functions the sketch calls, and the width of [time_t]. *)
Class TimeLib : Type := {
  time_t_bits : Z;
  mktime : tm -> Z;
  localtime_r : Z -> tm
}.

Definition wrap_time `{TimeLib} (x : Z) : Z := wrap_signed time_t_bits x.

(** A reference instance: the proleptic Gregorian calendar in UTC, which
    is what [configTime(0, 0, ...)] selects, with a 64-bit [time_t]. *)
Definition days_from_civil (y m d : Z) : Z :=
  let y' := if m <=? 2 then y - 1 else y in
  let era := y' / 400 in
  let yoe := y' - era * 400 in
  let mp := if 2 <? m then m - 3 else m + 9 in
  let doy := (153 * mp + 2) / 5 + d - 1 in
  let doe := yoe * 365 + yoe / 4 - yoe / 100 + doy in
  era * 146097 + doe - 719468.

Definition civil_from_days (z : Z) : Z * Z * Z :=
  let z' := z + 719468 in
  let era := z' / 146097 in
  let doe := z' - era * 146097 in
  let yoe := (doe - doe / 1460 + doe / 36524 - doe / 146096) / 365 in
  let doy := doe - (365 * yoe + yoe / 4 - yoe / 100) in
  let mp := (5 * doy + 2) / 153 in
  let d := doy - (153 * mp + 2) / 5 + 1 in
  let m := if mp <? 10 then mp + 3 else mp - 9 in
  let y := yoe + era * 400 + (if m <=? 2 then 1 else 0) in
  (y, m, d).

Definition mktime_utc (t : tm) : Z :=
  let y := tm_year t + 1900 + tm_mon t / 12 in
  let m := tm_mon t mod 12 + 1 in
  let days := days_from_civil y m 1 + (tm_mday t - 1) in
  wrap_signed 64 (days * 86400 + tm_hour t * 3600 + tm_min t * 60 + tm_sec t).

Definition localtime_utc (t : Z) : tm :=
  let days := t / 86400 in
  let secs := t mod 86400 in
  let '(y, m, d) := civil_from_days days in
  {| tm_sec := secs mod 60;
     tm_min := (secs mod 3600) / 60;
     tm_hour := secs / 3600;
     tm_mday := d;
     tm_mon := m - 1;
     tm_year := y - 1900;
     tm_wday := (days + 4) mod 7;
     tm_yday := days - days_from_civil y 1 1;
     tm_isdst := 0 |}.

Definition utc_time : TimeLib :=
  {| time_t_bits := 64; mktime := mktime_utc; localtime_r := localtime_utc |}.

End Libc.
Import Libc.

(** ** The sketch *)

Module Sketch.

Local Open Scope string_scope.
Import Str.

(** The macros of [config.h]. *)
Record Config : Type := {
  WIFI_SSID : string;
  WIFI_PASS : string;
  MINERVA_HOST : string;
  MINERVA_PORT : Z;
  TIMEZONE_OFFSET_SECONDS : Z;
  MINERVA_DEBUG : bool
}.

(** [config.example.h]. *)
Definition config_example : Config :=
  {| WIFI_SSID := "your-ssid";
     WIFI_PASS := "your-password";
     MINERVA_HOST := "192.168.1.100";
     MINERVA_PORT := 8000;
     TIMEZONE_OFFSET_SECONDS := 0;
     MINERVA_DEBUG := false |}.

Record ServiceItem : Type := {
  name : string;
  is_up : bool
}.

(** [services] is the array [ServiceItem services[4]]: a list that keeps
    length 4 (see [well_formed]); [service_count] is a [size_t] that only
    ever counts up from 0 to 4. *)
Record StatusState : Type := {
  bottom_line : string;
  word : string;
  services : list ServiceItem;
  service_count : nat;
  server_time : Z;
  expr_state : string;
  expr_message : string
}.

Definition empty_item : ServiceItem := {| name := EmptyString; is_up := false |}.

#[export] Instance ServiceItem_inhabited : Inhabited ServiceItem := populate empty_item.

(** The default-initialised global [StatusState last_state;]. *)
Definition initial_state : StatusState :=
  {| bottom_line := EmptyString;
     word := EmptyString;
     services := replicate 4 empty_item;
     service_count := 0;
     server_time := 0;
     expr_state := EmptyString;
     expr_message := EmptyString |}.

Definition well_formed (st : StatusState) : Prop := length (services st) = 4%nat.

(** Assignments to the fields of a snapshot. *)
Definition set_bottom_line (v : string) (st : StatusState) : StatusState :=
  {| bottom_line := v; word := word st; services := services st;
     service_count := service_count st; server_time := server_time st;
     expr_state := expr_state st; expr_message := expr_message st |}.
Definition set_word (v : string) (st : StatusState) : StatusState :=
  {| bottom_line := bottom_line st; word := v; services := services st;
     service_count := service_count st; server_time := server_time st;
     expr_state := expr_state st; expr_message := expr_message st |}.
Definition set_services (v : list ServiceItem) (st : StatusState) : StatusState :=
  {| bottom_line := bottom_line st; word := word st; services := v;
     service_count := service_count st; server_time := server_time st;
     expr_state := expr_state st; expr_message := expr_message st |}.
Definition set_service_count (v : nat) (st : StatusState) : StatusState :=
  {| bottom_line := bottom_line st; word := word st; services := services st;
     service_count := v; server_time := server_time st;
     expr_state := expr_state st; expr_message := expr_message st |}.
Definition set_server_time (v : Z) (st : StatusState) : StatusState :=
  {| bottom_line := bottom_line st; word := word st; services := services st;
     service_count := service_count st; server_time := v;
     expr_state := expr_state st; expr_message := expr_message st |}.
Definition set_expr_state (v : string) (st : StatusState) : StatusState :=
  {| bottom_line := bottom_line st; word := word st; services := services st;
     service_count := service_count st; server_time := server_time st;
     expr_state := v; expr_message := expr_message st |}.
Definition set_expr_message (v : string) (st : StatusState) : StatusState :=
  {| bottom_line := bottom_line st; word := word st; services := services st;
     service_count := service_count st; server_time := server_time st;
     expr_state := expr_state st; expr_message := v |}.

(** The globals the sketch mutates. *)
Record World : Type := {
  last_state : StatusState;
  last_poll : Z
}.

Definition initial_world : World := {| last_state := initial_state; last_poll := 0 |}.

Definition NTP_SERVER : string := "pool.ntp.org".
Definition POLL_INTERVAL_MS : Z := 45000.
Definition JSON_BUF_SIZE : Z := 4096.   (* capacity of the document; see [NoMemory] *)
Definition HTTP_CODE_OK : Z := 200.

(** What the sketch does to the outside, in order. *)
Inductive Color : Type := TFT_BLACK | TFT_WHITE | TFT_GREEN | TFT_RED.

Inductive TftCmd : Type :=
| TftInit
| SetRotation (r : Z)
| FillScreen (c : Color)
| SetTextColor (fg bg : Color)
| DrawString (s : string) (x y font : Z)
| DrawCircle (x y r : Z) (c : Color).

Inductive Event : Type :=
| SerialBegin (baud : Z)
| WiFiBegin (ssid pass : string)
| ConfigTime (gmt_offset daylight_offset : Z) (server : string)
| HttpBegin (url : string)
| HttpGet
| HttpEnd
| Tft (c : TftCmd)
| Delay (ms : Z).

(** Computations over the globals that log their effects. *)
Definition M (A : Type) : Type := World -> A * World * list Event.

Definition ret {A} (a : A) : M A := fun w => (a, w, []).

Definition bind {A B} (m : M A) (f : A -> M B) : M B :=
  fun w =>
    let '(a, w1, e1) := m w in
    let '(b, w2, e2) := f a w1 in
    (b, w2, (e1 ++ e2)%list).

Definition emit (e : Event) : M unit := fun w => (tt, w, [e]).
Definition tft (c : TftCmd) : M unit := emit (Tft c).
Definition get_last_state : M StatusState := fun w => (last_state w, w, []).
Definition modify_last_state (f : StatusState -> StatusState) : M unit :=
  fun w => (tt, {| last_state := f (last_state w); last_poll := last_poll w |}, []).
Definition get_last_poll : M Z := fun w => (last_poll w, w, []).
Definition set_last_poll (v : Z) : M unit :=
  fun w => (tt, {| last_state := last_state w; last_poll := v |}, []).

Definition value {A} (r : A * World * list Event) : A := fst (fst r).
Definition world {A} (r : A * World * list Event) : World := snd (fst r).
Definition events {A} (r : A * World * list Event) : list Event := snd r.

Declare Scope sketch_scope.
Delimit Scope sketch_scope with sketch.
Notation "x <- m ;; k" := (bind m (fun x => k))
  (at level 100, m at next level, k at level 200, right associativity) : sketch_scope.
Notation "m ;; k" := (bind m (fun _ => k))
  (at level 100, k at level 200, right associativity) : sketch_scope.
Local Open Scope sketch_scope.

(** The readings a call of [drawScreen] takes from its surroundings. *)
Record Ambient : Type := {
  time_now : Z;         (* time(nullptr) for the clock readout *)
  time_footer : Z;      (* time(nullptr) for the debug footer *)
  tft_width : Z;        (* tft.width() *)
  local_ip : string     (* WiFi.localIP().toString() *)
}.

(** The outcome of [deserializeJson(doc, *stream)]. *)
Inductive DeserializationError : Type :=
| EmptyInput | IncompleteInput | InvalidInput | NoMemory | TooDeep.

Inductive Deserialized : Type :=
| ParseError (e : DeserializationError)
| Parsed (doc : Json).

(** One HTTP exchange: the result of [http.begin], the code [http.GET()]
    returns, and what deserializing the body gives. *)
Record HttpExchange : Type := {
  begin_ok : bool;
  status_code : Z;
  body : Deserialized
}.

Section WithPlatform.

Context `{TimeLib} (cfg : Config).

Definition formatTwo (v : Z) : string :=
  if (v <? 10)%Z then "0" ++ String_of_int v else String_of_int v.

(** The lambda [drawFace] of [drawScreen]. *)
Definition drawFace (width : Z) (stateName : string) : M unit :=
  let cx := (width - 20)%Z in
  let cy := 15%Z in
  tft (DrawCircle cx cy 12 TFT_WHITE) ;;
  if String.eqb stateName "warning" || String.eqb stateName "error" then
    tft (DrawString ":O" (cx - 7) (cy - 6) 2)
  else if String.eqb stateName "thinking" then
    tft (DrawString ":|" (cx - 7) (cy - 6) 2)
  else if String.eqb stateName "happy" then
    tft (DrawString ":)" (cx - 7) (cy - 6) 2)
  else
    tft (DrawString "._" (cx - 7) (cy - 6) 2).

(** The body of the loop over the service rows, for the item [svc] of
    the row and its height [y]. *)
Definition draw_service (svc : ServiceItem) (y : Z) : M unit :=
  let icon := if is_up svc then "UP" else "DN" in
  let color := if is_up svc then TFT_GREEN else TFT_RED in
  tft (SetTextColor color TFT_BLACK) ;;
  tft (DrawString icon 5 y 2) ;;
  tft (SetTextColor TFT_WHITE TFT_BLACK) ;;
  let maxChars := 16%nat in
  let name := truncate maxChars (name svc) in
  tft (DrawString name 35 y 2).

(** [for (size_t i = 0; i < count && i < 4; i++) { ...; y += 20; }],
    from index [i] on; it returns the final [y].  The guard [i < 4]
    bounds the loop, so [fuel = 4] from [i = 0] never runs out. *)
Fixpoint draw_services (fuel : nat) (state : StatusState) (count i : nat) (y : Z) : M Z :=
  match fuel with
  | O => ret y
  | S fuel' =>
      if ((i <? count) && (i <? 4))%nat then
        draw_service (services state !!! i) y ;;
        draw_services fuel' state count (S i) (y + 20)%Z
      else ret y
  end.

(** [state.server_time + (time(nullptr) - state.server_time)], in
    [time_t] arithmetic. *)
Definition drift_corrected (server_time now : Z) : Z :=
  wrap_time (server_time + wrap_time (now - server_time)).

(** The block "Top: time/date" of [drawScreen]. *)
Definition draw_top (amb : Ambient) (state : StatusState) : M unit :=
  if negb (server_time state =? 0)%Z then
    let now := drift_corrected (server_time state) (time_now amb) in (* approx drift correction *)
    let timeinfo := localtime_r now in
    let timestr := formatTwo (tm_hour timeinfo) ++ ":" ++ formatTwo (tm_min timeinfo) in
    let datestr := formatTwo (tm_mday timeinfo) ++ "/"
                   ++ formatTwo (wrap_int (tm_mon timeinfo + 1)) in
    tft (DrawString timestr 5 5 4) ;;
    tft (DrawString datestr 120 5 2)
  else
    tft (DrawString "No time" 5 5 2).

(** The block "Middle: services"; it returns the final [y]. *)
Definition draw_middle (state : StatusState) : M Z :=
  let y := 40%Z in
  let count := service_count state in
  y <- draw_services 4 state count 0 y ;;
  if (count =? 0)%nat then
    tft (DrawString "No services" 5 y 2) ;;
    ret (y + 20)%Z
  else ret y.

(** The block "Bottom: bottom_line and word", at height [y]. *)
Definition draw_bottom (state : StatusState) (offline : bool) (y : Z) : M unit :=
  let bottom := if offline then "API offline" else bottom_line state in
  let bottom := truncate 22 bottom in
  tft (DrawString bottom 5 (y + 10) 2) ;;
  let wordline := "Word: " ++ word state in
  let maxWord := 22%nat in
  let wordline := truncate maxWord wordline in
  tft (DrawString wordline 5 (y + 30) 2).

(** The block "Debug footer", entered at height [y]. *)
Definition draw_footer (amb : Ambient) (offline : bool) (y : Z) : M unit :=
  if MINERVA_DEBUG cfg then
    let y := (y + 50)%Z in
    let footer1 := if offline then "IP: API offline" else "IP: " ++ local_ip amb in
    let now := time_footer amb in
    let t := localtime_r now in
    let footer2 := "Upd: " ++ formatTwo (tm_hour t) ++ ":" ++ formatTwo (tm_min t)
                   ++ ":" ++ formatTwo (tm_sec t) in
    tft (DrawString footer1 5 y 2) ;;
    tft (DrawString footer2 5 (y + 15) 2)
  else ret tt.

(** [drawScreen(state, offline)], block by block as the source
    comments divide it. *)
Definition drawScreen (amb : Ambient) (state : StatusState) (offline : bool) : M unit :=
  tft (FillScreen TFT_BLACK) ;;
  tft (SetTextColor TFT_WHITE TFT_BLACK) ;;
  draw_top amb state ;;
  drawFace (tft_width amb) (expr_state state) ;;
  y <- draw_middle state ;;
  draw_bottom state offline y ;;
  draw_footer amb offline y.

(** Assignments to the fields of [out.services[i]]. *)
Definition set_item_name (i : nat) (v : string) (out : StatusState) : StatusState :=
  let old := services out !!! i in
  set_services (<[i := {| name := v; is_up := is_up old |}]> (services out)) out.
Definition set_item_is_up (i : nat) (v : bool) (out : StatusState) : StatusState :=
  let old := services out !!! i in
  set_services (<[i := {| name := name old; is_up := v |}]> (services out)) out.

(** [for (JsonObject svc : services) { if (out.service_count >= 4) break; ... }] *)
Fixpoint read_services (entries : list Json) (out : StatusState) : StatusState :=
  match entries with
  | [] => out
  | entry :: rest =>
      let svc := as_object entry in
      if (4 <=? service_count out)%nat then out
      else
        let out := set_item_name (service_count out)
                     (String_of_cstr (as_cstr (member "name" svc))) out in
        let out := set_item_is_up (service_count out)
                     (or_bool (member "is_up" svc) false) out in
        let out := set_service_count (S (service_count out)) out in
        read_services rest out
  end.

(** [fetchStatus(last_state)]: the reference parameter [out] is bound
    to the global snapshot at the only call site. *)
Definition fetchStatus (http : HttpExchange) : M bool :=
  let url := "http://" ++ MINERVA_HOST cfg ++ ":" ++ String_of_int (MINERVA_PORT cfg)
             ++ "/status/compact" in
  emit (HttpBegin url) ;;
  if negb (begin_ok http) then ret false
  else
    emit HttpGet ;;
    let code := status_code http in
    if negb (code =? HTTP_CODE_OK)%Z then emit HttpEnd ;; ret false
    else
      match body http with
      | ParseError _ => emit HttpEnd ;; ret false
      | Parsed doc =>
          modify_last_state (set_bottom_line (or_cstr (member "bottom_line" doc) "All good")) ;;
          modify_last_state (set_word (or_cstr (member "word" (member "word_of_day" doc)) "None")) ;;
          modify_last_state (set_expr_state (or_cstr (member "state" (member "expression" doc)) "idle")) ;;
          modify_last_state (set_expr_message (or_cstr (member "message" (member "expression" doc)) EmptyString)) ;;
          modify_last_state (set_service_count 0) ;;
          let services := as_array (member "services" doc) in
          modify_last_state (read_services services) ;;
          let server_time := as_cstr (member "server_time" doc) in
          (match server_time with
           | Some s =>
               (* crude parse for YYYY-MM-DDTHH:MM:SS *)
               let '(n, vals) := Scanf.sscanf s Scanf.server_time_format in
               if (n =? 6)%Z then
                 match vals with
                 | [year; mon; mday; hour; min; sec] =>
                     (* struct tm t = {}; then the six assignments *)
                     let t := {| tm_sec := sec; tm_min := min; tm_hour := hour;
                                 tm_mday := mday; tm_mon := wrap_int (mon - 1);
                                 tm_year := wrap_int (year - 1900);
                                 tm_wday := 0; tm_yday := 0; tm_isdst := 0 |} in
                     modify_last_state (set_server_time (mktime t))
                 | _ => ret tt
                 end
               else ret tt
           | None => ret tt
           end) ;;
          emit HttpEnd ;;
          ret true
      end.

(** The readings one iteration of [loop] takes from its surroundings:
    [millis()], the HTTP exchange a fetch would see, and what
    [drawScreen] would read. *)
Record LoopInput : Type := {
  now_ms : Z;
  exchange : HttpExchange;
  ambient : Ambient
}.

Definition loop (inp : LoopInput) : M unit :=
  let now_ms := now_ms inp in
  last_poll <- get_last_poll ;;
  (if (POLL_INTERVAL_MS <? wrap_ulong (now_ms - last_poll))%Z then
     ok <- fetchStatus (exchange inp) ;;
     last_state <- get_last_state ;;
     drawScreen (ambient inp) last_state (negb ok) ;;
     set_last_poll now_ms
   else ret tt) ;;
  emit (Delay 200).

(** [connectWiFi()]: after [WiFi.mode] and [WiFi.begin], [WiFi.status()]
    is polled every 500 ms until it reports the link up; [down_polls] is
    the number of polls that found it down. *)
Fixpoint wait_for_link (down_polls : nat) : M unit :=
  match down_polls with
  | O => ret tt
  | S n => emit (Delay 500) ;; wait_for_link n
  end.

Definition connectWiFi (down_polls : nat) : M unit :=
  emit (WiFiBegin (WIFI_SSID cfg) (WIFI_PASS cfg)) ;;
  wait_for_link down_polls.

(** [syncTime()]: what [getLocalTime] answers only reaches the serial log. *)
Definition syncTime : M unit :=
  emit (ConfigTime (TIMEZONE_OFFSET_SECONDS cfg) 0 NTP_SERVER).

Definition setup (down_polls : nat) (amb : Ambient) : M unit :=
  emit (SerialBegin 115200) ;;
  tft TftInit ;;
  tft (SetRotation 1) ;;
  tft (FillScreen TFT_BLACK) ;;
  connectWiFi down_polls ;;
  syncTime ;;
  last_state <- get_last_state ;;
  drawScreen amb last_state true.

End WithPlatform.

End Sketch.
Import Sketch.
Local Open Scope sketch_scope.

(** ** Vocabulary of the statements *)

(** The strings drawn at pixel position [(x, y)], in drawing order. *)
Fixpoint drawn_at (x y : Z) (es : list Event) : list string :=
  match es with
  | [] => []
  | Tft (DrawString s x' y' _) :: rest =>
      if (y' =? y) && (x' =? x) then s :: drawn_at x y rest else drawn_at x y rest
  | _ :: rest => drawn_at x y rest
  end.

(** An HTTP request was started. *)
Definition fetch_attempted (es : list Event) : bool :=
  existsb (fun e => match e with HttpBegin _ => true | _ => false end) es.

(** The three ways a fetch cycle fails. *)
Definition fetch_fails (http : HttpExchange) : Prop :=
  begin_ok http = false \/
  status_code http <> HTTP_CODE_OK \/
  exists e, body http = ParseError e.

(** A fetch cycle that gets code 200 and a body that deserializes to [doc]. *)
Definition fetch_parses (http : HttpExchange) (doc : Json) : Prop :=
  begin_ok http = true /\ status_code http = HTTP_CODE_OK /\ body http = Parsed doc.

(** The service item an element of the payload's [services] array stands for. *)
Definition service_of_json (entry : Json) : ServiceItem :=
  {| name := Str.String_of_cstr (as_cstr (member "name" (as_object entry)));
     is_up := or_bool (member "is_up" (as_object entry)) false |}.

(** The broken-down time [fetchStatus] hands to [mktime]. *)
Definition broken_down (year mon mday hour min sec : Z) : tm :=
  {| tm_sec := sec; tm_min := min; tm_hour := hour; tm_mday := mday;
     tm_mon := wrap_int (mon - 1); tm_year := wrap_int (year - 1900);
     tm_wday := 0; tm_yday := 0; tm_isdst := 0 |}.

(** The height at which the bottom block starts: below the service rows,
    or below the line "No services". *)
Definition rows_end (st : StatusState) : Z :=
  match service_count st with
  | O => 60
  | S _ => 40 + 20 * Z.of_nat (Nat.min (service_count st) 4)
  end.

(** The invariant of the globals. *)
Definition snapshot_inv (w : World) : Prop :=
  well_formed (last_state w) /\ (service_count (last_state w) <= 4)%nat.

(** Sample inputs. *)
Definition sample_doc : Json :=
  JObject [("bottom_line", JString "Backups are late");
           ("services", JArray [JObject [("name", JString "cartofia"); ("is_up", JBool true)];
                                JObject [("name", JString "minecraft")]]);
           ("server_time", JString "2024-03-05T14:30:00")]%string.

Definition sample_ok (doc : Json) : HttpExchange :=
  {| begin_ok := true; status_code := 200; body := Parsed doc |}.

Definition sample_ambient : Ambient :=
  {| time_now := 1709649060; time_footer := 1709649061;
     tft_width := 320; local_ip := "192.168.1.50"%string |}.

(** What the straight-line assignments and the service loop of
    [fetchStatus] leave in the snapshot. *)
Definition stored_fields (doc : Json) (out : StatusState) : StatusState :=
  read_services (as_array (member "services" doc))
    (set_service_count 0
       (set_expr_message (or_cstr (member "message" (member "expression" doc)) EmptyString)
          (set_expr_state (or_cstr (member "state" (member "expression" doc)) "idle")
             (set_word (or_cstr (member "word" (member "word_of_day" doc)) "None")
                (set_bottom_line (or_cstr (member "bottom_line" doc) "All good") out))))).

(** The three outcomes for [server_time] of a payload [doc] on a snapshot
    whose [server_time] was [old]. *)
Inductive server_time_outcome `{TimeLib} (doc : Json) (old : Z) : Z -> Prop :=
| st_not_a_string :
    as_cstr (member "server_time" doc) = None ->
    server_time_outcome doc old old
| st_unmatched (s : string) :
    as_cstr (member "server_time" doc) = Some s ->
    fst (Scanf.sscanf s Scanf.server_time_format) <> 6 ->
    server_time_outcome doc old old
| st_matched (s : string) (year mon mday hour min sec : Z) :
    as_cstr (member "server_time" doc) = Some s ->
    Scanf.sscanf s Scanf.server_time_format = (6, [year; mon; mday; hour; min; sec]) ->
    server_time_outcome doc old (mktime (broken_down year mon mday hour min sec)).

(** The strings drawn at pixel position [(x, y)], each with the text
    colour in force when it is drawn; [fg] is the colour in force at the
    start. *)
Fixpoint inked (fg : Color) (x y : Z) (es : list Event) : list (string * Color) :=
  match es with
  | [] => []
  | Tft (SetTextColor fg' _) :: rest => inked fg' x y rest
  | Tft (DrawString s x' y' _) :: rest =>
      if (y' =? y) && (x' =? x) then (s, fg) :: inked fg x y rest else inked fg x y rest
  | _ :: rest => inked fg x y rest
  end.

(** The text colour in force after the events [es]. *)
Fixpoint ink_after (fg : Color) (es : list Event) : Color :=
  match es with
  | [] => fg
  | Tft (SetTextColor fg' _) :: rest => ink_after fg' rest
  | _ :: rest => ink_after fg rest
  end.

(** The time spent in [delay], in milliseconds. *)
Fixpoint total_delay (es : list Event) : Z :=
  match es with
  | [] => 0
  | Delay ms :: rest => ms + total_delay rest
  | _ :: rest => total_delay rest
  end.

(** Decimal digits and the strings they spell. *)
Definition digit_char (d : nat) : ascii := ascii_of_nat (48 + d).

Fixpoint digits_string (ds : list nat) : string :=
  match ds with
  | [] => EmptyString
  | d :: rest => String (digit_char d) (digits_string rest)
  end.

Definition decimal_from (acc : Z) (ds : list nat) : Z :=
  fold_left (fun a d => 10 * a + Z.of_nat d) ds acc.

Definition decimal (ds : list nat) : Z := decimal_from 0 ds.

(** A non-empty group of decimal digits. *)
Definition digit_group (ds : list nat) : Prop :=
  ds <> [] /\ Forall (fun d => (d < 10)%nat) ds.

(** A string that does not go on with a digit. *)
Definition starts_nondigit (s : string) : Prop :=
  match s with
  | EmptyString => True
  | String c _ => Scanf.digit_value c = None
  end.

(** Six digit groups laid out as "Y-M-DTh:m:s", followed by [rest]. *)
Definition timestamp (year mon mday hour min sec : list nat) (rest : string) : string :=
  (digits_string year ++ String "-" (digits_string mon ++ String "-" (digits_string mday
   ++ String "T" (digits_string hour ++ String ":" (digits_string min
   ++ String ":" (digits_string sec ++ rest))))))%string.

(** The tens digit and the units digit of [v]. *)
Definition two_digits (v : Z) : string :=
  digits_string [Z.to_nat (v / 10); Z.to_nat (v mod 10)].

(** What a render can show of a snapshot: the texts, the service rows up
    to the count (four at most), and whether a server time is known. *)
Definition same_view (st st' : StatusState) : Prop :=
  bottom_line st = bottom_line st' /\
  word st = word st' /\
  expr_state st = expr_state st' /\
  service_count st = service_count st' /\
  take (Nat.min (service_count st) 4) (services st)
  = take (Nat.min (service_count st') 4) (services st') /\
  (server_time st = 0 <-> server_time st' = 0).

(** The Arduino core calls [loop()] again and again; a run of finitely
    many iterations, one input per iteration. *)
Fixpoint iterate_loop `{TimeLib} (cfg : Config) (inps : list LoopInput) : M unit :=
  match inps with
  | [] => ret tt
  | inp :: rest => loop cfg inp ;; iterate_loop cfg rest
  end.

(** Library functions stay folded when the sketch is run symbolically. *)
#[local] Arguments Scanf.sscanf : simpl never.
#[local] Arguments member : simpl never.
#[local] Arguments as_cstr : simpl never.
#[local] Arguments or_cstr : simpl never.
#[local] Arguments or_bool : simpl never.
#[local] Arguments as_array : simpl never.
#[local] Arguments Str.truncate : simpl never.
#[local] Arguments Str.String_of_int : simpl never.
#[local] Arguments formatTwo : simpl never.
#[local] Arguments String.append : simpl never.
#[local] Arguments wrap_time : simpl never.
#[local] Arguments wrap_int : simpl never.
#[local] Arguments wrap_ulong : simpl never.
#[local] Arguments lookup_total : simpl never.
#[local] Arguments Z.eqb : simpl never.

(** Rewrites the coordinate tests that linear arithmetic decides. *)
Ltac settle_positions :=
  repeat match goal with
    | |- context [(?a =? ?b)%Z] =>
        first [ replace (a =? b)%Z with false by (symmetry; apply Z.eqb_neq; lia)
              | replace (a =? b)%Z with true by (symmetry; apply Z.eqb_eq; lia) ];
        cbn [andb]
    end.

(** ** Lemmas on the effect layer *)

Section Effects.

Context {A B : Type}.

Lemma events_bind (m : M A) (f : A -> M B) (w : World) :
  events (bind m f w) = events (m w) ++ events (f (value (m w)) (world (m w))).
Proof.
  unfold bind, events, value, world.
  destruct (m w) as [[a w1] e1]; simpl.
  destruct (f a w1) as [[b w2] e2]; reflexivity.
Qed.

Lemma world_bind (m : M A) (f : A -> M B) (w : World) :
  world (bind m f w) = world (f (value (m w)) (world (m w))).
Proof.
  unfold bind, events, value, world.
  destruct (m w) as [[a w1] e1]; simpl.
  destruct (f a w1) as [[b w2] e2]; reflexivity.
Qed.

Lemma value_bind (m : M A) (f : A -> M B) (w : World) :
  value (bind m f w) = value (f (value (m w)) (world (m w))).
Proof.
  unfold bind, events, value, world.
  destruct (m w) as [[a w1] e1]; simpl.
  destruct (f a w1) as [[b w2] e2]; reflexivity.
Qed.

End Effects.

Lemma drawn_at_app (x y : Z) (es1 es2 : list Event) :
  drawn_at x y (es1 ++ es2) = drawn_at x y es1 ++ drawn_at x y es2.
Proof.
  induction es1 as [|e es1 IH]; [reflexivity|].
  destruct e as [| | | | | |c|]; simpl; try exact IH.
  destruct c; simpl; try exact IH.
  destruct ((y0 =? y) && (x0 =? x)); simpl; now rewrite IH.
Qed.

(** ** Lemmas on machine integers and strings *)

Lemma wrap_signed_id (bits x : Z) :
  0 < bits -> in_signed_range bits x -> wrap_signed bits x = x.
Proof.
  unfold in_signed_range, wrap_signed. intros Hb Hx.
  assert (Hp : 2 ^ bits = 2 * 2 ^ (bits - 1)).
  { rewrite <- Z.pow_succ_r by lia. f_equal. lia. }
  rewrite Z.mod_small by lia. lia.
Qed.

Lemma wrap_signed_cong (bits x y : Z) :
  0 < bits -> x mod 2 ^ bits = y mod 2 ^ bits -> wrap_signed bits x = wrap_signed bits y.
Proof.
  intros Hb Hxy. unfold wrap_signed. f_equal.
  rewrite <- (Zplus_mod_idemp_l x), <- (Zplus_mod_idemp_l y).
  now rewrite Hxy.
Qed.

Lemma wrap_signed_mod (bits x : Z) :
  0 < bits -> wrap_signed bits x mod 2 ^ bits = x mod 2 ^ bits.
Proof.
  intros Hb. unfold wrap_signed.
  assert (Hp : 2 ^ bits = 2 * 2 ^ (bits - 1)).
  { rewrite <- Z.pow_succ_r by lia. f_equal. lia. }
  assert (0 < 2 ^ bits) by (apply Z.pow_pos_nonneg; lia).
  rewrite Zminus_mod, Zmod_mod, <- Zminus_mod.
  f_equal. lia.
Qed.

Lemma wrap_int_small (x : Z) : INT_MIN <= x <= INT_MAX -> wrap_int x = x.
Proof.
  unfold INT_MIN, INT_MAX, wrap_int. intros Hx.
  apply wrap_signed_id; [lia|]. unfold in_signed_range. simpl. lia.
Qed.

Lemma prefix_whole (n : nat) (s : string) :
  (String.length s <= n)%nat -> Str.prefix n s = s.
Proof.
  revert n. induction s as [|c s IH]; intros [|n] Hn; simpl in *; try reflexivity; try lia.
  f_equal. apply IH. lia.
Qed.

Lemma prefix_substring (n : nat) (s : string) :
  String.substring 0 n s = Str.prefix n s.
Proof.
  revert n. induction s as [|c s IH]; intros [|n]; simpl; try reflexivity.
  now rewrite IH.
Qed.

Lemma prefix_length (n : nat) (s : string) :
  String.length (Str.prefix n s) = Nat.min n (String.length s).
Proof.
  revert n. induction s as [|c s IH]; intros [|n]; simpl; try reflexivity.
  now rewrite IH.
Qed.

(** The truncation idiom keeps the first [n] bytes, for any string whose
    length is an [int]. *)
Lemma truncate_prefix (n : nat) (s : string) :
  Z.of_nat (String.length s) <= INT_MAX -> Str.truncate n s = Str.prefix n s.
Proof.
  intros Hlen. unfold Str.truncate, Str.length_int.
  rewrite wrap_int_small by (unfold INT_MIN, INT_MAX in *; lia).
  destruct (Z.ltb_spec (Z.of_nat n) (Z.of_nat (String.length s))) as [Hlt|Hge].
  - unfold Str.substring.
    replace (n <? 0)%nat with false by (symmetry; apply Nat.ltb_ge; lia).
    replace (String.length s <=? 0)%nat with false by (symmetry; apply Nat.leb_gt; lia).
    replace (String.length s <? n)%nat with false by (symmetry; apply Nat.ltb_ge; lia).
    rewrite Nat.sub_0_r. apply prefix_substring.
  - symmetry. apply prefix_whole. lia.
Qed.

(** ** Lemmas on [sscanf] *)

Lemma stopped_count (assigned : list Z) (b : bool) :
  fst (Scanf.stopped assigned b) = 6 ->
  Scanf.stopped assigned b = (6, assigned) /\ length assigned = 6%nat.
Proof.
  unfold Scanf.stopped.
  destruct assigned as [|a l], b; simpl; try discriminate; intros Hc.
  all: split; [f_equal; exact Hc | lia].
Qed.

(** When [sscanf] returns 6, six values have been assigned. *)
Lemma scan_count (fmt : list Scanf.Directive) (s : string) (assigned : list Z) :
  fst (Scanf.scan fmt s assigned) = 6 ->
  length (snd (Scanf.scan fmt s assigned)) = 6%nat.
Proof.
  revert s assigned. induction fmt as [|d fmt IH]; intros s assigned; simpl.
  - intros Hc. apply stopped_count in Hc as [-> Hl]. exact Hl.
  - destruct d as [|c].
    + destruct (Scanf.skip_space s) as [|c1 s1].
      * intros Hc. apply stopped_count in Hc as [-> Hl]. exact Hl.
      * destruct (Scanf.scan_int (String c1 s1)) as [[v rest]|].
        -- apply IH.
        -- intros Hc. apply stopped_count in Hc as [-> Hl]. exact Hl.
    + destruct s as [|c' rest].
      * intros Hc. apply stopped_count in Hc as [-> Hl]. exact Hl.
      * destruct (Ascii.eqb c c').
        -- apply IH.
        -- intros Hc. apply stopped_count in Hc as [-> Hl]. exact Hl.
Qed.

Lemma sscanf_six (s : string) (n : Z) (vals : list Z) :
  Scanf.sscanf s Scanf.server_time_format = (n, vals) -> n = 6 ->
  exists year mon mday hour min sec, vals = [year; mon; mday; hour; min; sec].
Proof.
  intros Hs Hn. subst n.
  pose proof (scan_count Scanf.server_time_format s []) as Hc.
  unfold Scanf.sscanf in Hs. rewrite Hs in Hc. simpl in Hc.
  specialize (Hc eq_refl).
  destruct vals as [|a [|b [|c [|d [|e [|f [|g l]]]]]]]; simpl in Hc; try discriminate.
  now exists a, b, c, d, e, f.
Qed.

(** ** Lemmas on [fetchStatus] *)

Lemma set_server_time_same (st : StatusState) :
  set_server_time (server_time st) st = st.
Proof. now destruct st. Qed.

Lemma read_services_server_time (entries : list Json) (out : StatusState) :
  server_time (read_services entries out) = server_time out.
Proof.
  revert out. induction entries as [|e es IH]; intros out;
    cbn [read_services]; [reflexivity|].
  destruct (4 <=? service_count out)%nat; [reflexivity|].
  now rewrite IH.
Qed.

Lemma stored_fields_server_time (doc : Json) (out : StatusState) :
  server_time (stored_fields doc out) = server_time out.
Proof. unfold stored_fields. now rewrite read_services_server_time. Qed.

(** The shape of a successful fetch. *)
Lemma fetchStatus_parsed `{TimeLib} (cfg : Config) (http : HttpExchange) (doc : Json) (w : World) :
  fetch_parses http doc ->
  value (fetchStatus cfg http w) = true /\
  last_poll (world (fetchStatus cfg http w)) = last_poll w /\
  exists t,
    server_time_outcome doc (server_time (last_state w)) t /\
    last_state (world (fetchStatus cfg http w))
    = set_server_time t (stored_fields doc (last_state w)).
Proof.
  intros (Hb & Hc & Hd). destruct http as [b code bd]; simpl in *; subst.
  unfold fetchStatus, value, world; cbn.
  fold (stored_fields doc (last_state w)).
  destruct (as_cstr (member "server_time" doc)) as [s|] eqn:Hs; cbn.
  - destruct (Scanf.sscanf s Scanf.server_time_format) as [n vals] eqn:Hscan.
    destruct (n =? 6) eqn:Hn.
    + apply Z.eqb_eq in Hn.
      destruct (sscanf_six s n vals Hscan Hn) as (y & mo & d & h & mi & se & ->).
      subst n. cbn. repeat split.
      eexists; split; [eapply st_matched; eassumption|reflexivity].
    + apply Z.eqb_neq in Hn. cbn. repeat split.
      exists (server_time (last_state w)); split.
      * eapply st_unmatched; [eassumption|]. now rewrite Hscan.
      * now rewrite <- (stored_fields_server_time doc), set_server_time_same.
  - repeat split.
    exists (server_time (last_state w)); split.
    + now apply st_not_a_string.
    + now rewrite <- (stored_fields_server_time doc), set_server_time_same.
Qed.

(** The shape of a failed fetch. *)
Lemma fetchStatus_failed `{TimeLib} (cfg : Config) (http : HttpExchange) (w : World) :
  fetch_fails http ->
  value (fetchStatus cfg http w) = false /\ world (fetchStatus cfg http w) = w.
Proof.
  intros Hf. destruct http as [b code bd]. unfold fetch_fails in Hf; simpl in Hf.
  unfold fetchStatus, value, world; simpl.
  destruct b; cbn; [|now split].
  destruct (code =? HTTP_CODE_OK) eqn:Hc; cbn; [|now split].
  apply Z.eqb_eq in Hc.
  destruct Hf as [Hf|[Hf|[e Hf]]]; [discriminate|contradiction|].
  subst bd. now split.
Qed.

Lemma absent_member_null (key : string) (v : Json) :
  has_member key v = false -> member key v = JNull.
Proof.
  unfold has_member, member. destruct v; try reflexivity.
  destruct (assoc key members); [discriminate|reflexivity].
Qed.

Lemma absent_member_default (key : string) (v : Json) (dflt : string) :
  has_member key v = false -> or_cstr (member key v) dflt = dflt.
Proof. intros Ha. now rewrite absent_member_null. Qed.

Lemma not_a_string_default (v : Json) (dflt : string) :
  as_cstr v = None -> or_cstr v dflt = dflt.
Proof. unfold as_cstr, or_cstr. now destruct v. Qed.

Lemma read_services_texts (entries : list Json) (out : StatusState) :
  bottom_line (read_services entries out) = bottom_line out /\
  word (read_services entries out) = word out /\
  expr_state (read_services entries out) = expr_state out /\
  expr_message (read_services entries out) = expr_message out.
Proof.
  revert out. induction entries as [|e es IH]; intros out;
    cbn [read_services]; [now repeat split|].
  destruct (4 <=? service_count out)%nat; [now repeat split|].
  match goal with
  | |- context [read_services es ?o] => destruct (IH o) as (-> & -> & -> & ->)
  end.
  now repeat split.
Qed.

(** ** Failed fetch cycles *)

(** C1: when a fetch cycle fails (the connection cannot be opened, the
    response code is not 200, or deserializing the body reports an error,
    which includes a payload too large for the buffer), [fetchStatus]
    returns [false] and the snapshot it was given is unchanged, field for
    field; so is the rest of the global state. *)
Theorem fetchStatus_failure_keeps_snapshot `{TimeLib}
    (cfg : Config) (http : HttpExchange) (w : World) :
  fetch_fails http ->
  value (fetchStatus cfg http w) = false /\
  last_state (world (fetchStatus cfg http w)) = last_state w /\
  last_poll (world (fetchStatus cfg http w)) = last_poll w.
Proof.
  intros Hf. destruct (fetchStatus_failed cfg http w Hf) as [Hv Hw].
  rewrite Hv, Hw. now repeat split.
Qed.

Lemma fetchStatus_failure_keeps_snapshot_witness :
  let http := {| begin_ok := true; status_code := 200; body := ParseError NoMemory |} in
  let w := world (fetchStatus (H := utc_time) config_example (sample_ok sample_doc) initial_world) in
  fetch_fails http /\
  value (fetchStatus (H := utc_time) config_example http w) = false /\
  last_state (world (fetchStatus (H := utc_time) config_example http w)) = last_state w /\
  last_poll (world (fetchStatus (H := utc_time) config_example http w)) = last_poll w.
Proof.
  intros http w. split.
  - right; right. exists NoMemory. reflexivity.
  - apply (fetchStatus_failure_keeps_snapshot (H := utc_time) config_example http w).
    right; right. exists NoMemory. reflexivity.
Defined.

(** ** The server time *)

(** C2 (as the code has it): a payload that parses makes [fetchStatus]
    return [true]; when its [server_time] is absent or not a string, or is
    a string on which [sscanf] with "%d-%d-%dT%d:%d:%d" does not assign six
    integers, the snapshot's [server_time] keeps the value it had before
    the fetch (0 on a snapshot that has never seen a server time); when
    six integers are assigned, [server_time] is [mktime] of the broken-down
    time they give. *)
Theorem fetchStatus_server_time `{TimeLib}
    (cfg : Config) (http : HttpExchange) (doc : Json) (w : World) :
  fetch_parses http doc ->
  let before := server_time (last_state w) in
  let after := server_time (last_state (world (fetchStatus cfg http w))) in
  value (fetchStatus cfg http w) = true /\
  (has_member "server_time" doc = false -> after = before) /\
  (as_cstr (member "server_time" doc) = None -> after = before) /\
  (forall s, as_cstr (member "server_time" doc) = Some s ->
             fst (Scanf.sscanf s Scanf.server_time_format) <> 6 ->
             after = before) /\
  (forall s year mon mday hour min sec,
      as_cstr (member "server_time" doc) = Some s ->
      Scanf.sscanf s Scanf.server_time_format = (6, [year; mon; mday; hour; min; sec]) ->
      after = mktime (broken_down year mon mday hour min sec)).
Proof.
  intros Hp before after.
  destruct (fetchStatus_parsed cfg http doc w Hp) as (Hv & _ & t & Ho & Hst).
  assert (Hafter : after = t) by (unfold after; now rewrite Hst).
  split; [exact Hv|]. rewrite Hafter. clear Hafter Hst after.
  fold before in Ho.
  repeat split.
  - intros Ha. apply absent_member_null in Ha.
    inversion Ho as [Hn|s Hs Hc|s y mo d h mi se Hs Hc]; try reflexivity.
    rewrite Ha in Hs. discriminate.
  - intros Ha.
    inversion Ho as [Hn|s Hs Hc|s y mo d h mi se Hs Hc]; try reflexivity.
    rewrite Ha in Hs. discriminate.
  - intros s0 Ha Hc0.
    inversion Ho as [Hn|s Hs Hc|s y mo d h mi se Hs Hc]; try reflexivity.
    rewrite Ha in Hs. injection Hs as <-. rewrite Hc in Hc0. now elim Hc0.
  - intros s0 y0 mo0 d0 h0 mi0 se0 Ha Hc0.
    inversion Ho as [Hn|s Hs Hc|s y mo d h mi se Hs Hc].
    + rewrite Ha in Hn. discriminate.
    + rewrite Ha in Hs. injection Hs as <-. rewrite Hc0 in Hc. now elim Hc.
    + rewrite Ha in Hs. injection Hs as <-. rewrite Hc0 in Hc.
      injection Hc as <- <- <- <- <- <-. reflexivity.
Qed.

Lemma fetchStatus_server_time_witness :
  fetch_parses (sample_ok sample_doc) sample_doc /\
  value (fetchStatus (H := utc_time) config_example (sample_ok sample_doc) initial_world) = true /\
  server_time (last_state (world (fetchStatus (H := utc_time) config_example
                                    (sample_ok sample_doc) initial_world)))
  = 1709649000.
Proof.
  split; [now repeat split|].
  pose proof (fetchStatus_server_time (H := utc_time) config_example
                (sample_ok sample_doc) sample_doc initial_world) as Hthm.
  destruct Hthm as (Hv & _ & _ & _ & Hm); [now repeat split|].
  split; [exact Hv|].
  apply (Hm "2024-03-05T14:30:00"%string 2024 3 5 14 30 0); reflexivity.
Defined.

(** A payload without [server_time], fetched after one that carried
    "2024-03-05T14:30:00", leaves the earlier time in the snapshot. *)
Lemma fetchStatus_server_time_is_kept :
  let w1 := world (fetchStatus (H := utc_time) config_example
                     (sample_ok sample_doc) initial_world) in
  let r2 := fetchStatus (H := utc_time) config_example (sample_ok (JObject [])) w1 in
  fetch_parses (sample_ok (JObject [])) (JObject []) /\
  has_member "server_time" (JObject []) = false /\
  value r2 = true /\
  server_time (last_state (world r2)) = 1709649000 /\
  server_time (last_state (world r2)) <> 0.
Proof. vm_compute. repeat split; discriminate. Qed.

(** The two strings of the specification, on a fresh snapshot in UTC. *)
Example server_time_iso_string :
  server_time (last_state (world (fetchStatus (H := utc_time) config_example
     (sample_ok (JObject [("server_time", JString "2024-03-05T14:30:00")]%string))
     initial_world))) = 1709649000.
Proof. reflexivity. Qed.

Example server_time_not_a_date :
  server_time (last_state (world (fetchStatus (H := utc_time) config_example
     (sample_ok (JObject [("server_time", JString "not-a-date")]%string))
     initial_world))) = 0.
Proof. reflexivity. Qed.

(** ** Defaults of the text fields *)

(** C8: in a payload that parses, a [bottom_line] that is absent gives
    "All good", a [word_of_day.word] that is absent gives "None" and an
    [expression.state] that is absent gives "idle"; the same holds when the
    field is present but not a string, and the fetch still returns
    [true]. *)
Theorem fetchStatus_defaults `{TimeLib}
    (cfg : Config) (http : HttpExchange) (doc : Json) (w : World) :
  fetch_parses http doc ->
  let st := last_state (world (fetchStatus cfg http w)) in
  value (fetchStatus cfg http w) = true /\
  (has_member "bottom_line" doc = false -> bottom_line st = "All good"%string) /\
  (has_member "word_of_day" doc = false \/
   has_member "word" (member "word_of_day" doc) = false -> word st = "None"%string) /\
  (has_member "expression" doc = false \/
   has_member "state" (member "expression" doc) = false -> expr_state st = "idle"%string) /\
  (as_cstr (member "bottom_line" doc) = None -> bottom_line st = "All good"%string) /\
  (as_cstr (member "word" (member "word_of_day" doc)) = None -> word st = "None"%string) /\
  (as_cstr (member "state" (member "expression" doc)) = None -> expr_state st = "idle"%string).
Proof.
  intros Hp st.
  destruct (fetchStatus_parsed cfg http doc w Hp) as (Hv & _ & t & _ & Hst).
  split; [exact Hv|].
  unfold st. rewrite Hst. unfold stored_fields.
  match goal with
  | |- context [read_services ?es ?out] =>
      destruct (read_services_texts es out) as (Hb & Hw & He & _)
  end.
  cbn [set_server_time bottom_line word expr_state].
  rewrite Hb, Hw, He. cbn.
  repeat split.
  - apply absent_member_default.
  - intros [Ha|Ha].
    + rewrite (absent_member_null _ _ Ha). reflexivity.
    + now apply absent_member_default.
  - intros [Ha|Ha].
    + rewrite (absent_member_null _ _ Ha). reflexivity.
    + now apply absent_member_default.
  - apply not_a_string_default.
  - apply not_a_string_default.
  - apply not_a_string_default.
Qed.

Lemma fetchStatus_defaults_witness :
  let st := last_state (world (fetchStatus (H := utc_time) config_example
                                 (sample_ok (JObject [])) initial_world)) in
  fetch_parses (sample_ok (JObject [])) (JObject []) /\
  bottom_line st = "All good"%string /\
  word st = "None"%string /\
  expr_state st = "idle"%string.
Proof.
  intros st.
  pose proof (fetchStatus_defaults (H := utc_time) config_example
                (sample_ok (JObject [])) (JObject []) initial_world) as Hthm.
  destruct Hthm as (_ & Hb & Hw & He & _); [now repeat split|].
  split; [now repeat split|].
  split; [apply Hb; reflexivity|].
  split; [apply Hw; left; reflexivity|apply He; left; reflexivity].
Defined.

(** ** The service loop *)

Lemma read_services_entry (c : nat) (entry : Json) (out : StatusState) :
  (c < length (services out))%nat ->
  services (set_item_is_up c (or_bool (member "is_up" (as_object entry)) false)
              (set_item_name c (Str.String_of_cstr (as_cstr (member "name" (as_object entry))))
                 out))
  = <[c := service_of_json entry]> (services out).
Proof.
  intros Hc. unfold set_item_is_up, set_item_name. cbn [services set_services].
  rewrite list_lookup_total_insert_eq by exact Hc.
  rewrite list_insert_insert_eq. reflexivity.
Qed.

(** The loop appends the entries, converted one by one, after the
    [service_count] items already counted, until four are stored. *)
Lemma read_services_spec (entries : list Json) (out : StatusState) :
  well_formed out -> (service_count out <= 4)%nat ->
  well_formed (read_services entries out) /\
  service_count (read_services entries out)
  = Nat.min (service_count out + length entries) 4 /\
  take (service_count (read_services entries out)) (services (read_services entries out))
  = take (service_count out) (services out)
    ++ map service_of_json (take (4 - service_count out) entries).
Proof.
  unfold well_formed.
  revert out. induction entries as [|entry rest IH]; intros out Hlen Hcnt;
    cbn [read_services].
  - rewrite Nat.add_0_r, Nat.min_l by exact Hcnt.
    rewrite take_nil. cbn [map]. rewrite app_nil_r. now repeat split.
  - destruct (Nat.leb_spec 4 (service_count out)) as [Hfull|Hroom].
    + assert (Hc : service_count out = 4%nat) by lia.
      rewrite Hc. cbn [Nat.sub take map]. rewrite app_nil_r.
      split; [exact Hlen|]. split; [cbn [length]; lia|reflexivity].
    + set (c := service_count out) in *.
      set (out1 := set_item_is_up _ _ (set_item_name c _ out)).
      assert (Hs1 : services out1 = <[c := service_of_json entry]> (services out)).
      { unfold out1.
        replace (service_count (set_item_name c
                   (Str.String_of_cstr (as_cstr (member "name" (as_object entry)))) out))
          with c by reflexivity.
        apply read_services_entry. lia. }
      assert (Hc1 : service_count out1 = c) by reflexivity.
      rewrite Hc1.
      destruct (IH (set_service_count (S c) out1)) as (Hwf & Hn & Ht).
      { cbn [services set_service_count]. rewrite Hs1, length_insert. exact Hlen. }
      { cbn [service_count set_service_count]. lia. }
      cbn [service_count set_service_count services] in Hn, Ht.
      split; [exact Hwf|]. split.
      * rewrite Hn. cbn [length]. lia.
      * rewrite Ht, Hs1.
        rewrite (take_S_r _ c (service_of_json entry))
          by (apply list_lookup_insert_eq; lia).
        rewrite take_insert_ge by lia.
        replace (4 - c)%nat with (S (4 - S c)) by lia.
        cbn [take map]. rewrite <- app_assoc. reflexivity.
Qed.

Lemma stored_fields_services (doc : Json) (out : StatusState) :
  well_formed out ->
  well_formed (stored_fields doc out) /\
  service_count (stored_fields doc out)
  = Nat.min (length (as_array (member "services" doc))) 4 /\
  take (service_count (stored_fields doc out)) (services (stored_fields doc out))
  = map service_of_json (take 4 (as_array (member "services" doc))).
Proof.
  intros Hwf. unfold stored_fields.
  match goal with
  | |- context [read_services ?es ?o] =>
      destruct (read_services_spec es o) as (H1 & H2 & H3)
  end.
  - exact Hwf.
  - cbn. lia.
  - cbn [service_count set_service_count] in H2, H3.
    rewrite Nat.add_0_l in H2. rewrite take_0, app_nil_l, Nat.sub_0_r in H3.
    now repeat split.
Qed.

Lemma fetch_outcome (http : HttpExchange) :
  fetch_fails http \/ exists doc, fetch_parses http doc.
Proof.
  destruct http as [b code bd]. unfold fetch_fails, fetch_parses; simpl.
  destruct b; [|now left; left].
  destruct (Z.eq_dec code HTTP_CODE_OK) as [->|Hne]; [|now left; right; left].
  destruct bd as [e|doc].
  - left; right; right. now exists e.
  - right. now exists doc.
Qed.

Lemma fetchStatus_inv `{TimeLib} (cfg : Config) (http : HttpExchange) (w : World) :
  snapshot_inv w -> snapshot_inv (world (fetchStatus cfg http w)).
Proof.
  intros [Hwf Hc]. destruct (fetch_outcome http) as [Hf|[doc Hp]].
  - destruct (fetchStatus_failed cfg http w Hf) as [_ ->]. now split.
  - destruct (fetchStatus_parsed cfg http doc w Hp) as (_ & _ & t & _ & Hst).
    destruct (stored_fields_services doc (last_state w) Hwf) as (H1 & H2 & _).
    unfold snapshot_inv. rewrite Hst. split.
    + exact H1.
    + cbn [service_count set_server_time]. rewrite H2. lia.
Qed.

(** ** Lemmas on [drawScreen] *)

Lemma rows_end_range (st : StatusState) : 60 <= rows_end st <= 120.
Proof.
  unfold rows_end. destruct (service_count st) as [|[|[|[|[|n]]]]]; cbn; lia.
Qed.

Lemma draw_top_run `{TimeLib} (amb : Ambient) (st : StatusState) (w : World) :
  world (draw_top amb st w) = w /\
  forall x y, y <> 5 -> drawn_at x y (events (draw_top amb st w)) = [].
Proof.
  unfold draw_top. split.
  - now destruct (negb (server_time st =? 0)).
  - intros x y Hy.
    destruct (negb (server_time st =? 0)); cbn; settle_positions; reflexivity.
Qed.

Lemma drawFace_run (width : Z) (s : string) (w : World) :
  world (drawFace width s w) = w /\
  forall x y, y <> 9 -> drawn_at x y (events (drawFace width s w)) = [].
Proof.
  unfold drawFace. split.
  - destruct (String.eqb s "warning" || String.eqb s "error");
      [|destruct (String.eqb s "thinking"); [|destruct (String.eqb s "happy")]];
      reflexivity.
  - intros x y Hy.
    destruct (String.eqb s "warning" || String.eqb s "error");
      [|destruct (String.eqb s "thinking"); [|destruct (String.eqb s "happy")]];
      cbn; settle_positions; reflexivity.
Qed.

Lemma draw_middle_run `{TimeLib} (st : StatusState) (w : World) :
  world (draw_middle st w) = w /\
  value (draw_middle st w) = rows_end st /\
  forall x y, y < 40 \/ rows_end st <= y ->
              drawn_at x y (events (draw_middle st w)) = [].
Proof.
  unfold draw_middle, rows_end.
  destruct (service_count st) as [|[|[|[|[|n]]]]]; cbn.
  all: split; [reflexivity|]; split; [reflexivity|].
  all: intros x y Hy; settle_positions; reflexivity.
Qed.

Lemma draw_footer_run `{TimeLib} (cfg : Config) (amb : Ambient) (offline : bool) (y0 : Z) (w : World) :
  world (draw_footer cfg amb offline y0 w) = w /\
  forall x y, y < y0 + 50 -> drawn_at x y (events (draw_footer cfg amb offline y0 w)) = [].
Proof.
  unfold draw_footer. split.
  - now destruct (MINERVA_DEBUG cfg).
  - intros x y Hy. destruct (MINERVA_DEBUG cfg); cbn; [|reflexivity].
    settle_positions. reflexivity.
Qed.

(** The events of a render, block by block. *)
Lemma drawScreen_events `{TimeLib} (cfg : Config) (amb : Ambient) (st : StatusState)
    (offline : bool) (w : World) :
  events (drawScreen cfg amb st offline w)
  = [Tft (FillScreen TFT_BLACK); Tft (SetTextColor TFT_WHITE TFT_BLACK)]
    ++ events (draw_top amb st w)
    ++ events (drawFace (tft_width amb) (expr_state st) w)
    ++ events (draw_middle st w)
    ++ events (draw_bottom st offline (rows_end st) w)
    ++ events (draw_footer cfg amb offline (rows_end st) w).
Proof.
  unfold drawScreen.
  destruct (draw_top_run amb st w) as [Ht _].
  destruct (drawFace_run (tft_width amb) (expr_state st) w) as [Hf _].
  destruct (draw_middle_run st w) as (Hm & Hv & _).
  rewrite !events_bind. cbn [tft emit events world value fst snd app].
  rewrite Ht, Hf, Hm, Hv. reflexivity.
Qed.

Lemma drawScreen_world `{TimeLib} (cfg : Config) (amb : Ambient) (st : StatusState)
    (offline : bool) (w : World) :
  world (drawScreen cfg amb st offline w) = w.
Proof.
  unfold drawScreen.
  destruct (draw_top_run amb st w) as [Ht _].
  destruct (drawFace_run (tft_width amb) (expr_state st) w) as [Hf _].
  destruct (draw_middle_run st w) as (Hm & Hv & _).
  rewrite !world_bind. cbn [tft emit events world value fst snd].
  rewrite Ht, Hf, Hm.
  destruct (draw_footer_run cfg amb offline (value (draw_middle st w)) w) as [Hw _].
  exact Hw.
Qed.


Lemma draw_bottom_events (st : StatusState) (offline : bool) (y : Z) (w : World) :
  events (draw_bottom st offline y w)
  = [Tft (DrawString (Str.truncate 22 (if offline then "API offline"%string
                                       else bottom_line st)) 5 (y + 10) 2);
     Tft (DrawString (Str.truncate 22 ("Word: " ++ word st)%string) 5 (y + 30) 2)].
Proof. reflexivity. Qed.

(** What a render draws in the two lines of the bottom block. *)
Lemma drawScreen_bottom_lines `{TimeLib} (cfg : Config) (amb : Ambient) (st : StatusState)
    (offline : bool) (w : World) :
  drawn_at 5 (rows_end st + 10) (events (drawScreen cfg amb st offline w))
  = [Str.truncate 22 (if offline then "API offline"%string else bottom_line st)] /\
  drawn_at 5 (rows_end st + 30) (events (drawScreen cfg amb st offline w))
  = [Str.truncate 22 ("Word: " ++ word st)%string].
Proof.
  pose proof (rows_end_range st) as Hr.
  destruct (draw_top_run amb st w) as [_ Ht].
  destruct (drawFace_run (tft_width amb) (expr_state st) w) as [_ Hf].
  destruct (draw_middle_run st w) as (_ & _ & Hm).
  destruct (draw_footer_run cfg amb offline (rows_end st) w) as [_ Hd].
  rewrite drawScreen_events, !drawn_at_app, draw_bottom_events.
  rewrite !Ht, !Hf, !Hm, !Hd by lia.
  cbn [drawn_at app]. settle_positions. split; reflexivity.
Qed.

(** What a render draws at the face. *)
Lemma drawScreen_face `{TimeLib} (cfg : Config) (amb : Ambient) (st : StatusState)
    (offline : bool) (w : World) :
  drawn_at (tft_width amb - 20 - 7) (15 - 6) (events (drawScreen cfg amb st offline w))
  = drawn_at (tft_width amb - 20 - 7) (15 - 6)
      (events (drawFace (tft_width amb) (expr_state st) w)).
Proof.
  pose proof (rows_end_range st) as Hr.
  destruct (draw_top_run amb st w) as [_ Ht].
  destruct (draw_middle_run st w) as (_ & _ & Hm).
  destruct (draw_footer_run cfg amb offline (rows_end st) w) as [_ Hd].
  rewrite drawScreen_events, !drawn_at_app, draw_bottom_events.
  rewrite Ht, Hm, Hd by lia.
  cbn [drawn_at app]. settle_positions. now rewrite app_nil_r.
Qed.

(** What a render draws in the clock line. *)
Lemma drawScreen_top `{TimeLib} (cfg : Config) (amb : Ambient) (st : StatusState)
    (offline : bool) (w : World) (x : Z) :
  drawn_at x 5 (events (drawScreen cfg amb st offline w))
  = drawn_at x 5 (events (draw_top amb st w)).
Proof.
  pose proof (rows_end_range st) as Hr.
  destruct (drawFace_run (tft_width amb) (expr_state st) w) as [_ Hf].
  destruct (draw_middle_run st w) as (_ & _ & Hm).
  destruct (draw_footer_run cfg amb offline (rows_end st) w) as [_ Hd].
  rewrite drawScreen_events, !drawn_at_app, draw_bottom_events.
  rewrite Hf, Hm, Hd by lia.
  cbn [drawn_at app]. settle_positions. now rewrite app_nil_r.
Qed.

Lemma service_row_cases (st : StatusState) (i : nat) :
  (i < Nat.min (service_count st) 4)%nat ->
  (i = 0 \/ i = 1 \/ i = 2 \/ i = 3)%nat /\ (i < service_count st)%nat.
Proof. lia. Qed.

(** What a render draws as the name of service row [i]. *)
Lemma drawScreen_service_name `{TimeLib} (cfg : Config) (amb : Ambient) (st : StatusState)
    (offline : bool) (w : World) (i : nat) :
  (i < Nat.min (service_count st) 4)%nat ->
  drawn_at 35 (40 + 20 * Z.of_nat i) (events (drawScreen cfg amb st offline w))
  = [Str.truncate 16 (name (services st !!! i))].
Proof.
  intros Hi. apply service_row_cases in Hi as [Hi Hc].
  pose proof (rows_end_range st) as Hr.
  destruct (draw_top_run amb st w) as [_ Ht].
  destruct (drawFace_run (tft_width amb) (expr_state st) w) as [_ Hf].
  destruct (draw_footer_run cfg amb offline (rows_end st) w) as [_ Hd].
  rewrite drawScreen_events, !drawn_at_app, draw_bottom_events.
  rewrite Ht, Hf, Hd by lia.
  cbn [drawn_at app]. settle_positions.
  unfold draw_middle, rows_end.
  destruct (service_count st) as [|[|[|[|[|n]]]]];
    destruct Hi as [->|[->|[->| ->]]]; try lia; cbn;
    settle_positions; reflexivity.
Qed.

(** ** The clock readout *)

Lemma drift_corrected_now `{TimeLib} (server_time now : Z) :
  0 < time_t_bits -> in_signed_range time_t_bits now ->
  drift_corrected server_time now = now.
Proof.
  intros Hb Hn. unfold drift_corrected, wrap_time.
  rewrite <- (wrap_signed_id time_t_bits now Hb Hn) at 2.
  apply wrap_signed_cong; [exact Hb|].
  rewrite Zplus_mod, wrap_signed_mod, <- Zplus_mod by exact Hb.
  f_equal. lia.
Qed.

(** C3: for a snapshot whose [server_time] is not 0, the time value
    [drawScreen] breaks down for the clock is the current wall-clock time
    itself, whatever the captured server time: the strings drawn at the
    clock and date positions are those of [localtime_r] of the current
    time.  For a snapshot whose [server_time] is 0, "No time" is drawn at
    the clock position and nothing at the date position. *)
Theorem drawScreen_clock_is_wall_time `{TimeLib}
    (cfg : Config) (amb : Ambient) (st : StatusState) (offline : bool) (w : World) :
  0 < time_t_bits -> in_signed_range time_t_bits (time_now amb) ->
  let shown := localtime_r (time_now amb) in
  let screen := events (drawScreen cfg amb st offline w) in
  (server_time st <> 0 ->
   drift_corrected (server_time st) (time_now amb) = time_now amb /\
   drawn_at 5 5 screen
   = [(formatTwo (tm_hour shown) ++ ":" ++ formatTwo (tm_min shown))%string] /\
   drawn_at 120 5 screen
   = [(formatTwo (tm_mday shown) ++ "/" ++ formatTwo (wrap_int (tm_mon shown + 1)))%string]) /\
  (server_time st = 0 ->
   drawn_at 5 5 screen = ["No time"%string] /\ drawn_at 120 5 screen = []).
Proof.
  intros Hb Hn shown screen. unfold screen.
  rewrite !drawScreen_top. unfold draw_top. split.
  - intros Hst. apply Z.eqb_neq in Hst. rewrite Hst. cbn [negb].
    rewrite (drift_corrected_now _ _ Hb Hn).
    split; [reflexivity|]. cbn. settle_positions. split; reflexivity.
  - intros Hst. rewrite Hst. cbn. settle_positions. split; reflexivity.
Qed.

Lemma drawScreen_clock_is_wall_time_witness :
  let st := last_state (world (fetchStatus (H := utc_time) config_example
                                 (sample_ok sample_doc) initial_world)) in
  let screen := events (drawScreen (H := utc_time) config_example sample_ambient
                          st false initial_world) in
  (0 < 64 /\ in_signed_range 64 1709649060) /\
  drawn_at 5 5 screen = ["14:31"%string] /\
  drawn_at 120 5 screen = ["05/03"%string].
Proof.
  intros st screen.
  assert (Hb : 0 < 64) by lia.
  assert (Hn : in_signed_range 64 1709649060) by (unfold in_signed_range; simpl; lia).
  split; [split; assumption|].
  pose proof (drawScreen_clock_is_wall_time (H := utc_time) config_example
                sample_ambient st false initial_world Hb Hn) as Hthm.
  destruct Hthm as [Hknown _].
  destruct Hknown as (_ & Hclock & Hdate); [vm_compute; discriminate|].
  split; [exact Hclock|exact Hdate].
Defined.

(** ** Truncation *)

(** C6: [drawScreen] draws, at the bottom-line position, the first 22
    characters of the bottom text, which is [bottom_line] unless the
    render is the offline one (so a [bottom_line] of length 30 is drawn
    as exactly its first 22 characters); at the name position of every service row, the first 16
    characters of that service's name (so a name of length 20 is drawn as
    exactly its first 16 characters); and at the word position, the first
    22 characters of "Word: " followed by [word], the prefix counting
    toward the 22. *)
Theorem drawScreen_truncation `{TimeLib}
    (cfg : Config) (amb : Ambient) (st : StatusState) (offline : bool) (w : World) :
  let screen := events (drawScreen cfg amb st offline w) in
  (Z.of_nat (String.length (bottom_line st)) <= INT_MAX ->
   drawn_at 5 (rows_end st + 10) screen
   = [Str.prefix 22 (if offline then "API offline"%string else bottom_line st)]) /\
  (offline = false -> String.length (bottom_line st) = 30%nat ->
   drawn_at 5 (rows_end st + 10) screen = [Str.prefix 22 (bottom_line st)] /\
   String.length (Str.prefix 22 (bottom_line st)) = 22%nat) /\
  (forall i, (i < Nat.min (service_count st) 4)%nat ->
             String.length (name (services st !!! i)) = 20%nat ->
             drawn_at 35 (40 + 20 * Z.of_nat i) screen
             = [Str.prefix 16 (name (services st !!! i))] /\
             String.length (Str.prefix 16 (name (services st !!! i))) = 16%nat) /\
  (Z.of_nat (String.length (word st)) + 6 <= INT_MAX ->
   drawn_at 5 (rows_end st + 30) screen = [Str.prefix 22 ("Word: " ++ word st)%string] /\
   (String.length (Str.prefix 22 ("Word: " ++ word st)%string) <= 22)%nat).
Proof.
  intros screen. unfold screen.
  destruct (drawScreen_bottom_lines cfg amb st offline w) as [Hbottom Hword].
  split; [|split; [|split]].
  - intros Hlen. rewrite Hbottom. apply f_equal2; [|reflexivity].
    apply truncate_prefix. destruct offline; [|exact Hlen].
    unfold INT_MAX. simpl. lia.
  - intros Hoff Hlen. split.
    + rewrite Hbottom, Hoff. apply f_equal2; [|reflexivity].
      apply truncate_prefix. rewrite Hlen. unfold INT_MAX. simpl. lia.
    + rewrite prefix_length, Hlen. reflexivity.
  - intros i Hi Hlen. split.
    + rewrite drawScreen_service_name by exact Hi.
      apply f_equal2; [|reflexivity].
      apply truncate_prefix. rewrite Hlen. unfold INT_MAX. simpl. lia.
    + rewrite prefix_length, Hlen. reflexivity.
  - intros Hlen. split.
    + rewrite Hword. apply f_equal2; [|reflexivity].
      apply truncate_prefix.
      change (String.length ("Word: " ++ word st)%string)
        with (6 + String.length (word st))%nat. lia.
    + rewrite prefix_length. lia.
Qed.

Lemma drawScreen_truncation_witness :
  let st := {| bottom_line := "Disk usage on pve-01 above 90%";
               word := "sesquipedalian-sized";
               services := [ {| name := "cartofia-production1"; is_up := true |};
                             empty_item; empty_item; empty_item ];
               service_count := 1;
               server_time := 0;
               expr_state := "warning";
               expr_message := EmptyString |}%string in
  let screen := events (drawScreen (H := utc_time) config_example sample_ambient
                          st false initial_world) in
  drawn_at 5 70 screen = ["Disk usage on pve-01 a"%string] /\
  drawn_at 35 40 screen = ["cartofia-product"%string] /\
  drawn_at 5 90 screen = ["Word: sesquipedalian-s"%string].
Proof.
  intros st screen.
  pose proof (drawScreen_truncation (H := utc_time) config_example sample_ambient
                st false initial_world) as Hthm.
  destruct Hthm as (_ & Hbottom & Hname & Hword).
  split; [exact (proj1 (Hbottom eq_refl eq_refl))|].
  split.
  - refine (proj1 (Hname 0%nat _ eq_refl)). simpl. lia.
  - change (drawn_at 5 (rows_end st + 30) screen
            = [Str.prefix 22 ("Word: " ++ word st)%string]).
    apply Hword. unfold INT_MAX. simpl. lia.
Defined.

(** ** The offline render *)

(** C7: with [offline = true], [drawScreen] draws "API offline" at the
    bottom-line position whatever [bottom_line] the snapshot stores, and
    no render changes the globals: the snapshot, its [bottom_line]
    included, is the same after the call, and a later render that is not
    offline draws the stored [bottom_line] (truncated) again. *)
Theorem drawScreen_offline_override `{TimeLib}
    (cfg : Config) (amb amb' : Ambient) (st : StatusState) (offline : bool) (w : World) :
  drawn_at 5 (rows_end st + 10) (events (drawScreen cfg amb st true w))
  = ["API offline"%string] /\
  world (drawScreen cfg amb st offline w) = w /\
  last_state (world (drawScreen cfg amb (last_state w) true w)) = last_state w /\
  drawn_at 5 (rows_end (last_state w) + 10)
    (events (drawScreen cfg amb'
               (last_state (world (drawScreen cfg amb (last_state w) true w))) false
               (world (drawScreen cfg amb (last_state w) true w))))
  = [Str.truncate 22 (bottom_line (last_state w))].
Proof.
  rewrite !drawScreen_world.
  split; [|split; [reflexivity|split; [reflexivity|]]].
  - now destruct (drawScreen_bottom_lines cfg amb st true w) as [-> _].
  - now destruct (drawScreen_bottom_lines cfg amb' (last_state w) false w) as [-> _].
Qed.

(** ** The face *)

Lemma eqb_false_of_neq (s t : string) : s <> t -> String.eqb s t = false.
Proof. intros Hne. now apply String.eqb_neq. Qed.

(** C9: the glyph [drawScreen] draws in the face is ":O" when
    [expr_state] is "warning" or "error", ":|" when it is "thinking", ":)"
    when it is "happy", and "._" for every other string, "idle" (the
    default of an absent field) among them. *)
Theorem drawScreen_face_glyph `{TimeLib}
    (cfg : Config) (amb : Ambient) (st : StatusState) (offline : bool) (w : World) :
  let glyph := drawn_at (tft_width amb - 20 - 7) (15 - 6)
                 (events (drawScreen cfg amb st offline w)) in
  (expr_state st = "warning"%string \/ expr_state st = "error"%string ->
   glyph = [":O"%string]) /\
  (expr_state st = "thinking"%string -> glyph = [":|"%string]) /\
  (expr_state st = "happy"%string -> glyph = [":)"%string]) /\
  (expr_state st <> "warning"%string -> expr_state st <> "error"%string ->
   expr_state st <> "thinking"%string -> expr_state st <> "happy"%string ->
   glyph = ["._"%string]) /\
  (expr_state st = "idle"%string -> glyph = ["._"%string]).
Proof.
  intros glyph. unfold glyph. rewrite drawScreen_face. unfold drawFace.
  repeat split.
  - intros [-> | ->]; cbn; settle_positions; reflexivity.
  - intros ->; cbn; settle_positions; reflexivity.
  - intros ->; cbn; settle_positions; reflexivity.
  - intros H1 H2 H3 H4.
    rewrite (eqb_false_of_neq _ _ H1), (eqb_false_of_neq _ _ H2),
      (eqb_false_of_neq _ _ H3), (eqb_false_of_neq _ _ H4).
    cbn; settle_positions; reflexivity.
  - intros ->; cbn; settle_positions; reflexivity.
Qed.

Lemma drawScreen_face_glyph_witness :
  let st := last_state (world (fetchStatus (H := utc_time) config_example
              (sample_ok (JObject [("expression", JObject [("state", JString "error")])]%string))
              initial_world)) in
  expr_state st = "error"%string /\
  drawn_at 293 9 (events (drawScreen (H := utc_time) config_example sample_ambient
                            st true initial_world))
  = [":O"%string].
Proof.
  intros st. split; [reflexivity|].
  pose proof (drawScreen_face_glyph (H := utc_time) config_example sample_ambient
                st true initial_world) as Hthm.
  destruct Hthm as (Halarm & _).
  apply Halarm. right. reflexivity.
Defined.

(** ** The service cap *)

Lemma loop_run `{TimeLib} (cfg : Config) (inp : LoopInput) (w : World) :
  let f := fetchStatus cfg (exchange inp) w in
  let d := drawScreen cfg (ambient inp) (last_state (world f)) (negb (value f)) (world f) in
  (POLL_INTERVAL_MS < wrap_ulong (now_ms inp - last_poll w) ->
   events (loop cfg inp w) = events f ++ events d ++ [Delay 200] /\
   world (loop cfg inp w) = {| last_state := last_state (world f); last_poll := now_ms inp |}) /\
  (wrap_ulong (now_ms inp - last_poll w) <= POLL_INTERVAL_MS ->
   events (loop cfg inp w) = [Delay 200] /\ world (loop cfg inp w) = w).
Proof.
  intros f d. unfold loop.
  rewrite !events_bind, !world_bind.
  cbn [get_last_poll value world events fst snd app].
  split; intros Hgate.
  - apply Z.ltb_lt in Hgate. rewrite Hgate.
    rewrite !events_bind, !world_bind.
    cbn [get_last_state set_last_poll emit value world events fst snd app].
    rewrite drawScreen_world.
    cbn [last_state last_poll].
    rewrite app_nil_r, <- app_assoc. split; reflexivity.
  - apply Z.ltb_ge in Hgate. rewrite Hgate. split; reflexivity.
Qed.

Lemma wait_for_link_world (down_polls : nat) (w : World) :
  world (wait_for_link down_polls w) = w.
Proof.
  induction down_polls as [|n IH]; [reflexivity|].
  cbn [wait_for_link]. rewrite world_bind. exact IH.
Qed.

Lemma setup_world `{TimeLib} (cfg : Config) (down_polls : nat) (amb : Ambient) (w : World) :
  world (setup cfg down_polls amb w) = w.
Proof.
  unfold setup, connectWiFi, syncTime. rewrite !world_bind.
  cbn [tft emit get_last_state value world fst snd].
  rewrite wait_for_link_world. cbn [emit world fst snd].
  apply drawScreen_world.
Qed.

Lemma loop_inv `{TimeLib} (cfg : Config) (inp : LoopInput) (w : World) :
  snapshot_inv w -> snapshot_inv (world (loop cfg inp w)).
Proof.
  intros Hinv. destruct (loop_run cfg inp w) as [Hopen Hshut].
  destruct (Z.lt_ge_cases POLL_INTERVAL_MS (wrap_ulong (now_ms inp - last_poll w)))
    as [Hlt|Hge].
  - destruct (Hopen Hlt) as [_ ->].
    apply (fetchStatus_inv cfg (exchange inp)) in Hinv. exact Hinv.
  - destruct (Hshut Hge) as [_ ->]. exact Hinv.
Qed.

(** C5: a payload that parses with [N] entries in its [services] array
    leaves [min N 4] services in the snapshot, namely the first [min N 4]
    entries in payload order (an entry past the fourth is never stored);
    and [service_count <= 4] holds initially and after [setup],
    [fetchStatus], [drawScreen] and [loop], whatever they are given. *)
Theorem fetchStatus_service_cap `{TimeLib} (cfg : Config) :
  (forall http doc w,
      fetch_parses http doc -> well_formed (last_state w) ->
      let entries := as_array (member "services" doc) in
      let st := last_state (world (fetchStatus cfg http w)) in
      service_count st = Nat.min (length entries) 4 /\
      take (service_count st) (services st) = map service_of_json (take 4 entries)) /\
  snapshot_inv initial_world /\
  (forall down_polls amb w,
      snapshot_inv w -> snapshot_inv (world (setup cfg down_polls amb w))) /\
  (forall http w, snapshot_inv w -> snapshot_inv (world (fetchStatus cfg http w))) /\
  (forall amb st offline w,
      snapshot_inv w -> snapshot_inv (world (drawScreen cfg amb st offline w))) /\
  (forall inp w, snapshot_inv w -> snapshot_inv (world (loop cfg inp w))).
Proof.
  split; [|split; [|split; [|split; [|split]]]].
  - intros http doc w Hp Hwf entries st.
    destruct (fetchStatus_parsed cfg http doc w Hp) as (_ & _ & t & _ & Hst).
    destruct (stored_fields_services doc (last_state w) Hwf) as (_ & Hn & Ht).
    unfold st. rewrite Hst. cbn [service_count services set_server_time].
    split; assumption.
  - split; [reflexivity|]. cbn. lia.
  - intros down_polls amb w Hinv. now rewrite setup_world.
  - intros http w. apply fetchStatus_inv.
  - intros amb st offline w Hinv. now rewrite drawScreen_world.
  - intros inp w. apply loop_inv.
Qed.

Lemma fetchStatus_service_cap_witness :
  let six := JArray [JObject [("name", JString "a")]; JObject [("name", JString "b")];
                     JObject [("name", JString "c")]; JObject [("name", JString "d")];
                     JObject [("name", JString "e")]; JObject [("name", JString "f")]]%string in
  let doc := JObject [("services"%string, six)] in
  let st := last_state (world (fetchStatus (H := utc_time) config_example
                                 (sample_ok doc) initial_world)) in
  (fetch_parses (sample_ok doc) doc /\ well_formed (last_state initial_world)) /\
  service_count st = 4%nat /\
  take (service_count st) (services st)
  = [ {| name := "a"; is_up := false |}; {| name := "b"; is_up := false |};
      {| name := "c"; is_up := false |}; {| name := "d"; is_up := false |} ]%string.
Proof.
  intros six doc st.
  assert (Hp : fetch_parses (sample_ok doc) doc) by now repeat split.
  assert (Hwf : well_formed (last_state initial_world)) by reflexivity.
  split; [split; assumption|].
  destruct (fetchStatus_service_cap (H := utc_time) config_example) as (Hcap & _).
  exact (Hcap (sample_ok doc) doc initial_world Hp Hwf).
Defined.

(** C10: in a payload that parses, the entry at index [i < 4] of the
    [services] array is stored at index [i] of the snapshot, whatever its
    fields are; its [is_up] is [false] when the entry's [is_up] is absent
    or not a boolean, and its [name] is empty when the entry's [name] is
    absent (or not a string); the fetch still returns [true]. *)
Theorem fetchStatus_service_field_defaults `{TimeLib}
    (cfg : Config) (http : HttpExchange) (doc : Json) (w : World)
    (i : nat) (entry : Json) :
  fetch_parses http doc -> well_formed (last_state w) ->
  as_array (member "services" doc) !! i = Some entry -> (i < 4)%nat ->
  let st := last_state (world (fetchStatus cfg http w)) in
  value (fetchStatus cfg http w) = true /\
  (i < service_count st)%nat /\
  services st !! i = Some (service_of_json entry) /\
  (has_member "is_up" (as_object entry) = false -> is_up (services st !!! i) = false) /\
  ((forall b, member "is_up" (as_object entry) <> JBool b) ->
   is_up (services st !!! i) = false) /\
  (has_member "name" (as_object entry) = false -> name (services st !!! i) = EmptyString) /\
  (as_cstr (member "name" (as_object entry)) = None ->
   name (services st !!! i) = EmptyString).
Proof.
  intros Hp Hwf Hentry Hi st.
  destruct (fetchStatus_parsed cfg http doc w Hp) as (Hv & _ & t & _ & Hst).
  destruct (stored_fields_services doc (last_state w) Hwf) as (_ & Hn & Ht).
  assert (Hlen : (i < length (as_array (member "services" doc)))%nat)
    by (apply lookup_lt_is_Some; eauto).
  assert (Hcount : (i < service_count st)%nat).
  { unfold st. rewrite Hst. cbn [service_count set_server_time]. rewrite Hn. lia. }
  assert (Hstored : services st !! i = Some (service_of_json entry)).
  { unfold st in *. rewrite Hst in *. cbn [service_count services set_server_time] in *.
    rewrite <- (lookup_take_lt _ (service_count (stored_fields doc (last_state w))))
      by exact Hcount.
    rewrite Ht.
    change (map service_of_json (take 4 (as_array (member "services" doc))))
      with (service_of_json <$> take 4 (as_array (member "services" doc))).
    rewrite list_lookup_fmap, lookup_take_lt by exact Hi.
    rewrite Hentry. reflexivity. }
  rewrite (list_lookup_total_correct _ _ _ Hstored).
  split; [exact Hv|]. split; [exact Hcount|]. split; [exact Hstored|].
  unfold service_of_json. cbn [is_up name].
  repeat split.
  - intros Ha. now rewrite (absent_member_null _ _ Ha).
  - intros Hnb. unfold or_bool.
    destruct (member "is_up" (as_object entry)) as [|b| | | |]; try reflexivity.
    now elim (Hnb b).
  - intros Ha. now rewrite (absent_member_null _ _ Ha).
  - intros ->. reflexivity.
Qed.

Lemma fetchStatus_service_field_defaults_witness :
  let entry := JObject [("is_up", JString "yes")]%string in
  let doc := JObject [("services", JArray [JObject [("name", JString "a")]%string; entry])]%string in
  let st := last_state (world (fetchStatus (H := utc_time) config_example
                                 (sample_ok doc) initial_world)) in
  (fetch_parses (sample_ok doc) doc /\ well_formed (last_state initial_world) /\
   as_array (member "services" doc) !! 1%nat = Some entry /\ (1 < 4)%nat) /\
  services st !! 1%nat = Some {| name := EmptyString; is_up := false |} /\
  service_count st = 2%nat.
Proof.
  intros entry doc st.
  assert (Hp : fetch_parses (sample_ok doc) doc) by now repeat split.
  assert (Hwf : well_formed (last_state initial_world)) by reflexivity.
  assert (He : as_array (member "services" doc) !! 1%nat = Some entry) by reflexivity.
  assert (Hi : (1 < 4)%nat) by lia.
  split; [repeat split; assumption|].
  destruct (fetchStatus_service_field_defaults (H := utc_time) config_example
              (sample_ok doc) doc initial_world 1%nat entry Hp Hwf He Hi)
    as (_ & _ & Hstored & _).
  split; [exact Hstored|reflexivity].
Defined.

(** ** The timer gate *)

Lemma fetchStatus_attempted `{TimeLib} (cfg : Config) (http : HttpExchange) (w : World) :
  forall rest, fetch_attempted (events (fetchStatus cfg http w) ++ rest) = true.
Proof.
  intros rest. unfold fetchStatus. rewrite events_bind. reflexivity.
Qed.

(** C4 (as the code has it): in one iteration of [loop], a fetch is
    attempted if and only if strictly more than 45000 ms have elapsed
    since the last attempt, the difference of the two [millis] readings
    being taken as an [unsigned long]; when a fetch is attempted,
    [drawScreen] runs right after it on the global snapshot with
    [offline = !ok], whatever the fetch returned, and [last_poll] becomes
    the current reading; otherwise nothing is fetched or drawn and the
    globals are unchanged.  Every iteration ends with [delay(200)]. *)
Theorem loop_timer_gate `{TimeLib} (cfg : Config) (inp : LoopInput) (w : World) :
  let elapsed := wrap_ulong (now_ms inp - last_poll w) in
  let f := fetchStatus cfg (exchange inp) w in
  let d := drawScreen cfg (ambient inp) (last_state (world f)) (negb (value f)) (world f) in
  (fetch_attempted (events (loop cfg inp w)) = true <-> POLL_INTERVAL_MS < elapsed) /\
  (POLL_INTERVAL_MS < elapsed ->
   events (loop cfg inp w) = events f ++ events d ++ [Delay 200] /\
   last_state (world (loop cfg inp w)) = last_state (world f) /\
   last_poll (world (loop cfg inp w)) = now_ms inp) /\
  (elapsed <= POLL_INTERVAL_MS ->
   events (loop cfg inp w) = [Delay 200] /\ world (loop cfg inp w) = w).
Proof.
  intros elapsed f d.
  destruct (loop_run cfg inp w) as [Hopen Hshut]. fold elapsed f d in Hopen, Hshut.
  split; [|split].
  - split.
    + intros Hatt. destruct (Z.lt_ge_cases POLL_INTERVAL_MS elapsed) as [Hlt|Hge];
        [exact Hlt|].
      destruct (Hshut Hge) as [He _]. rewrite He in Hatt. discriminate.
    + intros Hlt. destruct (Hopen Hlt) as [-> _]. apply fetchStatus_attempted.
  - intros Hlt. destruct (Hopen Hlt) as [-> ->]. now repeat split.
  - exact Hshut.
Qed.

Lemma loop_timer_gate_witness :
  let inp := {| now_ms := 45001; exchange := sample_ok sample_doc; ambient := sample_ambient |} in
  let r := loop (H := utc_time) config_example inp initial_world in
  POLL_INTERVAL_MS < wrap_ulong (now_ms inp - last_poll initial_world) /\
  fetch_attempted (events r) = true /\
  last_poll (world r) = 45001.
Proof.
  intros inp r.
  assert (Hlt : POLL_INTERVAL_MS < wrap_ulong (now_ms inp - last_poll initial_world))
    by (vm_compute; reflexivity).
  split; [exact Hlt|].
  destruct (loop_timer_gate (H := utc_time) config_example inp initial_world)
    as (Hiff & Hopen & _).
  split.
  - apply Hiff. exact Hlt.
  - destruct (Hopen Hlt) as (_ & _ & Hpoll). exact Hpoll.
Defined.

(** When exactly 45000 ms have elapsed, the interval has elapsed and yet
    no fetch is attempted. *)
Lemma loop_waits_at_exactly_45s :
  let inp := {| now_ms := 45000; exchange := sample_ok sample_doc; ambient := sample_ambient |} in
  let r := loop (H := utc_time) config_example inp initial_world in
  wrap_ulong (now_ms inp - last_poll initial_world) = 45000 /\
  POLL_INTERVAL_MS <= wrap_ulong (now_ms inp - last_poll initial_world) /\
  fetch_attempted (events r) = false /\
  events r = [Delay 200].
Proof. vm_compute. repeat split. discriminate. Qed.

(** ** Decimal digits: what [formatTwo] prints and what [sscanf] reads *)

Lemma digit_char_cases (d : nat) :
  (d < 10)%nat ->
  Scanf.digit_value (digit_char d) = Some (Z.of_nat d) /\
  Scanf.isspace (digit_char d) = false /\
  digit_char d <> "-"%char /\ digit_char d <> "+"%char.
Proof.
  intros Hd.
  do 10 (destruct d as [|d]; [repeat split; discriminate|]). lia.
Qed.

Lemma scan_digits_group (ds : list nat) (acc : Z) (rest : string) :
  Forall (fun d => (d < 10)%nat) ds -> starts_nondigit rest ->
  Scanf.scan_digits acc (digits_string ds ++ rest)%string = (decimal_from acc ds, rest).
Proof.
  intros Hds Hrest. revert acc.
  induction Hds as [|d ds Hd _ IH]; intros acc.
  - change (digits_string [] ++ rest)%string with rest. unfold decimal_from. cbn [fold_left].
    destruct rest as [|c r]; [reflexivity|].
    cbn [Scanf.scan_digits]. cbn [starts_nondigit] in Hrest. now rewrite Hrest.
  - change (digits_string (d :: ds) ++ rest)%string
      with (String (digit_char d) (digits_string ds ++ rest)%string).
    cbn [Scanf.scan_digits].
    destruct (digit_char_cases d Hd) as (-> & _).
    rewrite IH. reflexivity.
Qed.

Lemma scan_int_group (ds : list nat) (rest : string) :
  digit_group ds -> starts_nondigit rest ->
  Scanf.skip_space (digits_string ds ++ rest)%string = (digits_string ds ++ rest)%string /\
  Scanf.scan_int (digits_string ds ++ rest)%string
  = Some (clamp_int (decimal ds), rest).
Proof.
  intros [Hne Hds] Hrest.
  destruct ds as [|d ds]; [congruence|].
  pose proof (scan_digits_group (d :: ds) 0 rest Hds Hrest) as Hscan.
  inversion Hds as [|? ? Hd Hds']; subst.
  destruct (digit_char_cases d Hd) as (Hv & Hsp & Hminus & Hplus).
  change (digits_string (d :: ds) ++ rest)%string
    with (String (digit_char d) (digits_string ds ++ rest)%string) in *.
  split.
  - cbn [Scanf.skip_space]. now rewrite Hsp.
  - unfold Scanf.scan_int.
    destruct (digit_char d) as [b0 b1 b2 b3 b4 b5 b6 b7] eqn:Hc.
    destruct b0, b1, b2, b3, b4, b5, b6, b7;
      try (exfalso; apply Hminus; reflexivity);
      try (exfalso; apply Hplus; reflexivity);
      rewrite Hv, Hscan; reflexivity.
Qed.

Lemma scan_conversion (fmt : list Scanf.Directive) (ds : list nat) (rest : string)
    (assigned : list Z) :
  digit_group ds -> starts_nondigit rest ->
  Scanf.scan (Scanf.ConvInt :: fmt) (digits_string ds ++ rest)%string assigned
  = Scanf.scan fmt rest (assigned ++ [clamp_int (decimal ds)]).
Proof.
  intros Hg Hrest. destruct (scan_int_group ds rest Hg Hrest) as [Hsp Hint].
  cbn [Scanf.scan]. rewrite Hsp.
  destruct Hg as [Hne _]. destruct ds as [|d ds]; [congruence|].
  change (digits_string (d :: ds) ++ rest)%string
    with (String (digit_char d) (digits_string ds ++ rest)%string) in *.
  cbv beta iota. now rewrite Hint.
Qed.

Lemma scan_literal (fmt : list Scanf.Directive) (c : ascii) (rest : string)
    (assigned : list Z) :
  Scanf.scan (Scanf.Lit c :: fmt) (String c rest) assigned = Scanf.scan fmt rest assigned.
Proof. cbn [Scanf.scan]. now rewrite Ascii.eqb_refl. Qed.

(** [sscanf] reads six digit groups laid out as "Y-M-DTh:m:s", whatever
    follows them. *)
Lemma sscanf_timestamp (year mon mday hour min sec : list nat) (rest : string) :
  digit_group year -> digit_group mon -> digit_group mday ->
  digit_group hour -> digit_group min -> digit_group sec ->
  starts_nondigit rest ->
  Scanf.sscanf (timestamp year mon mday hour min sec rest) Scanf.server_time_format
  = (6, [clamp_int (decimal year); clamp_int (decimal mon); clamp_int (decimal mday);
         clamp_int (decimal hour); clamp_int (decimal min); clamp_int (decimal sec)]).
Proof.
  intros Hy Hmo Hd Hh Hmi Hs Hrest.
  unfold Scanf.sscanf, timestamp, Scanf.server_time_format.
  repeat (rewrite scan_conversion by (try assumption; reflexivity);
          try rewrite scan_literal).
  reflexivity.
Qed.

(** X17: a payload whose [server_time] is six groups of digits laid out
    as "Y-M-DTh:m:s" is accepted whatever follows the seconds (a zone
    suffix, a fraction, nothing): the snapshot's [server_time] becomes
    [mktime] of the six numbers, each saturated to the range of [int]. *)
Theorem fetchStatus_accepts_timestamp `{TimeLib}
    (cfg : Config) (http : HttpExchange) (doc : Json) (w : World)
    (year mon mday hour min sec : list nat) (rest : string) :
  fetch_parses http doc ->
  as_cstr (member "server_time" doc) = Some (timestamp year mon mday hour min sec rest) ->
  digit_group year -> digit_group mon -> digit_group mday ->
  digit_group hour -> digit_group min -> digit_group sec ->
  starts_nondigit rest ->
  server_time (last_state (world (fetchStatus cfg http w)))
  = mktime (broken_down (clamp_int (decimal year)) (clamp_int (decimal mon))
              (clamp_int (decimal mday)) (clamp_int (decimal hour))
              (clamp_int (decimal min)) (clamp_int (decimal sec))).
Proof.
  intros Hp Hs Hy Hmo Hd Hh Hmi Hse Hrest.
  pose proof (sscanf_timestamp year mon mday hour min sec rest Hy Hmo Hd Hh Hmi Hse Hrest)
    as Hscan.
  destruct (fetchStatus_parsed cfg http doc w Hp) as (_ & _ & t & Ho & ->).
  cbn [server_time set_server_time].
  inversion Ho as [Hn|s Hs' Hc|s y mo d h mi se Hs' Hc].
  - rewrite Hs in Hn. discriminate.
  - rewrite Hs in Hs'. injection Hs' as <-. rewrite Hscan in Hc. now elim Hc.
  - rewrite Hs in Hs'. injection Hs' as <-. rewrite Hscan in Hc.
    injection Hc as <- <- <- <- <- <-. reflexivity.
Qed.

Lemma fetchStatus_accepts_timestamp_witness :
  let doc := JObject [("server_time", JString "2024-03-05T14:30:00.250+01:00")]%string in
  (fetch_parses (sample_ok doc) doc /\
   as_cstr (member "server_time" doc)
   = Some (timestamp [2; 0; 2; 4] [0; 3] [0; 5] [1; 4] [3; 0] [0; 0] ".250+01:00")%nat /\
   digit_group [2; 0; 2; 4]%nat /\ starts_nondigit ".250+01:00") /\
  server_time (last_state (world (fetchStatus (H := utc_time) config_example
                                    (sample_ok doc) initial_world)))
  = 1709649000.
Proof.
  intros doc.
  assert (Hp : fetch_parses (sample_ok doc) doc) by now repeat split.
  split.
  - split; [exact Hp|]. split; [reflexivity|]. split; [|reflexivity].
    split; [discriminate|]. repeat (constructor; [lia|]). constructor.
  - apply (fetchStatus_accepts_timestamp (H := utc_time) config_example (sample_ok doc) doc
             initial_world [2; 0; 2; 4]%nat [0; 3]%nat [0; 5]%nat [1; 4]%nat [3; 0]%nat
             [0; 0]%nat ".250+01:00" Hp eq_refl);
      try (split; [discriminate|]; repeat (constructor; [lia|]); constructor).
    reflexivity.
Defined.

Lemma two_digits_below_100 (n : nat) :
  (n < 100)%nat -> formatTwo (Z.of_nat n) = two_digits (Z.of_nat n).
Proof.
  intros Hn.
  assert (Hall : forallb (fun k => String.eqb (formatTwo (Z.of_nat k)) (two_digits (Z.of_nat k)))
                   (seq 0 100) = true) by (vm_compute; reflexivity).
  rewrite forallb_forall in Hall.
  apply String.eqb_eq, Hall, in_seq. lia.
Qed.

Lemma formatTwo_pads (v : Z) :
  0 <= v < 100 -> formatTwo v = two_digits v /\ String.length (two_digits v) = 2%nat.
Proof.
  intros Hv. split; [|reflexivity].
  rewrite <- (Z2Nat.id v) by lia. apply two_digits_below_100. lia.
Qed.

(** X1: for [0 <= v < 100], [formatTwo v] is two characters, the tens
    digit and the units digit of [v] (a leading zero below 10), and
    reading them back as a number gives [v]. *)
Theorem formatTwo_two_digits (v : Z) :
  0 <= v < 100 ->
  formatTwo v = two_digits v /\
  String.length (formatTwo v) = 2%nat /\
  Scanf.scan_digits 0 (formatTwo v) = (v, EmptyString).
Proof.
  intros Hv.
  destruct (formatTwo_pads v Hv) as [Hf _].
  rewrite Hf. split; [reflexivity|]. split; [reflexivity|].
  assert (Ht : 0 <= v / 10 < 10)
    by (split; [apply Z.div_pos; lia | apply Z.div_lt_upper_bound; lia]).
  assert (Hu : 0 <= v mod 10 < 10) by (apply Z.mod_pos_bound; lia).
  unfold two_digits.
  pose proof (scan_digits_group [Z.to_nat (v / 10); Z.to_nat (v mod 10)] 0 EmptyString) as Hs.
  replace (digits_string [Z.to_nat (v / 10); Z.to_nat (v mod 10)] ++ EmptyString)%string
    with (digits_string [Z.to_nat (v / 10); Z.to_nat (v mod 10)]) in Hs by reflexivity.
  rewrite Hs.
  - unfold decimal_from. cbn [fold_left].
    rewrite !Z2Nat.id by lia.
    f_equal. pose proof (Z.div_mod v 10). lia.
  - repeat (constructor; [lia|]). constructor.
  - exact I.
Qed.

Lemma formatTwo_two_digits_witness :
  0 <= 7 < 100 /\ formatTwo 7 = "07"%string /\ Scanf.scan_digits 0 (formatTwo 7) = (7, EmptyString).
Proof.
  assert (Hv : 0 <= 7 < 100) by lia.
  destruct (formatTwo_two_digits 7 Hv) as (Hf & _ & Hs).
  split; [exact Hv|]. split; [exact Hf|exact Hs].
Defined.

(** ** More on what [drawScreen] draws *)

Lemma inked_app (fg : Color) (x y : Z) (es1 es2 : list Event) :
  inked fg x y (es1 ++ es2) = inked fg x y es1 ++ inked (ink_after fg es1) x y es2.
Proof.
  revert fg. induction es1 as [|e es1 IH]; intros fg; [reflexivity|].
  destruct e as [| | | | | |c|]; cbn [app inked ink_after]; try apply IH.
  destruct c; cbn [inked ink_after]; try apply IH.
  destruct ((y0 =? y) && (x0 =? x)); cbn [app]; now rewrite IH.
Qed.

(** Events that set no text colour draw in the colour they start with. *)
Lemma inked_plain (es : list Event) (fg : Color) (x y : Z) :
  List.Forall (fun e => forall c b, e <> Tft (SetTextColor c b)) es ->
  ink_after fg es = fg /\
  inked fg x y es = map (fun s => (s, fg)) (drawn_at x y es).
Proof.
  induction 1 as [|e es He _ [IH1 IH2]]; [now split|].
  destruct e as [| | | | | |c|]; cbn [inked ink_after drawn_at]; try (now split).
  destruct c; cbn [inked ink_after drawn_at]; try (now split).
  - now elim (He fg0 bg).
  - destruct ((y0 =? y) && (x0 =? x)); cbn [map]; rewrite IH2; now split.
Qed.

Lemma draw_blocks_plain `{TimeLib} (cfg : Config) (amb : Ambient) (st : StatusState)
    (offline : bool) (y : Z) (w : World) :
  let plain := List.Forall (fun e => forall c b, e <> Tft (SetTextColor c b)) in
  plain (events (draw_top amb st w)) /\
  plain (events (drawFace (tft_width amb) (expr_state st) w)) /\
  plain (events (draw_bottom st offline y w)) /\
  plain (events (draw_footer cfg amb offline y w)).
Proof.
  intros plain. unfold plain, draw_top, drawFace, draw_footer.
  rewrite draw_bottom_events.
  destruct (negb (server_time st =? 0));
    (destruct (String.eqb (expr_state st) "warning" || String.eqb (expr_state st) "error");
     [|destruct (String.eqb (expr_state st) "thinking");
       [|destruct (String.eqb (expr_state st) "happy")]]);
    destruct (MINERVA_DEBUG cfg); cbn;
    repeat split; repeat (constructor; [discriminate|]); constructor.
Qed.

Lemma draw_middle_ink `{TimeLib} (st : StatusState) (w : World) :
  ink_after TFT_WHITE (events (draw_middle st w)) = TFT_WHITE /\
  forall x y, x <> 5 \/ y < 40 \/ rows_end st <= y ->
              List.Forall (fun p => snd p = TFT_WHITE)
                (inked TFT_WHITE x y (events (draw_middle st w))).
Proof.
  unfold draw_middle, rows_end.
  destruct (service_count st) as [|[|[|[|[|n]]]]]; cbn.
  all: split; [reflexivity|].
  all: intros x y Hpos.
  all: destruct (Z.eq_dec x 5) as [->|Hx];
    [ settle_positions
    | replace (5 =? x) with false by (symmetry; apply Z.eqb_neq; lia);
      rewrite ?andb_false_r ].
  all: repeat match goal with
         | |- context [if ?b then _ else _] => destruct b
         end.
  all: repeat (constructor; [reflexivity|]); constructor.
Qed.

(** The inked strings of a render, block by block. *)
Lemma drawScreen_inked `{TimeLib} (cfg : Config) (amb : Ambient) (st : StatusState)
    (offline : bool) (w : World) (fg : Color) (x y : Z) :
  let white := map (fun s => (s, TFT_WHITE)) in
  inked fg x y (events (drawScreen cfg amb st offline w))
  = white (drawn_at x y (events (draw_top amb st w)))
    ++ white (drawn_at x y (events (drawFace (tft_width amb) (expr_state st) w)))
    ++ inked TFT_WHITE x y (events (draw_middle st w))
    ++ white (drawn_at x y (events (draw_bottom st offline (rows_end st) w)))
    ++ white (drawn_at x y (events (draw_footer cfg amb offline (rows_end st) w))).
Proof.
  intros white.
  destruct (draw_blocks_plain cfg amb st offline (rows_end st) w) as (Pt & Pf & Pb & Pd).
  destruct (draw_middle_ink st w) as [Hm _].
  rewrite drawScreen_events. cbn [app inked].
  rewrite !inked_app.
  destruct (inked_plain _ TFT_WHITE x y Pt) as [-> ->].
  destruct (inked_plain _ TFT_WHITE x y Pf) as [-> ->].
  rewrite Hm.
  destruct (inked_plain _ TFT_WHITE x y Pb) as [-> ->].
  destruct (inked_plain _ TFT_WHITE x y Pd) as [_ ->].
  reflexivity.
Qed.

(** X3: in every service row that is drawn, the icon is "UP" in green for
    a service that is up and "DN" in red for one that is down, and the
    name next to it is white; no string is coloured anywhere else: all
    text outside the icon column of the service rows is white. *)
Theorem drawScreen_service_colours `{TimeLib}
    (cfg : Config) (amb : Ambient) (st : StatusState) (offline : bool) (w : World)
    (fg : Color) :
  let screen := events (drawScreen cfg amb st offline w) in
  (forall i, (i < Nat.min (service_count st) 4)%nat ->
     let svc := services st !!! i in
     inked fg 5 (40 + 20 * Z.of_nat i) screen
     = [(if is_up svc then "UP"%string else "DN"%string,
         if is_up svc then TFT_GREEN else TFT_RED)] /\
     inked fg 35 (40 + 20 * Z.of_nat i) screen
     = [(Str.truncate 16 (name svc), TFT_WHITE)]) /\
  (forall x y, x <> 5 \/ y < 40 \/ rows_end st <= y ->
     List.Forall (fun p => snd p = TFT_WHITE) (inked fg x y screen)).
Proof.
  intros screen. unfold screen. split.
  - intros i Hi. cbv zeta.
    apply service_row_cases in Hi as [Hi Hc].
    pose proof (rows_end_range st) as Hr.
    destruct (draw_top_run amb st w) as [_ Ht].
    destruct (drawFace_run (tft_width amb) (expr_state st) w) as [_ Hf].
    destruct (draw_footer_run cfg amb offline (rows_end st) w) as [_ Hd].
    rewrite !drawScreen_inked, draw_bottom_events.
    rewrite !Ht, !Hf, !Hd by lia.
    cbn [drawn_at map app].
    unfold draw_middle, rows_end.
    destruct (service_count st) as [|[|[|[|[|n]]]]];
      destruct Hi as [->|[->|[->| ->]]]; try lia; cbn;
      settle_positions; split; reflexivity.
  - intros x y Hpos.
    destruct (draw_middle_ink st w) as [_ Hm].
    rewrite drawScreen_inked.
    repeat (apply Forall_app; split); try (apply (Hm x y Hpos)).
    all: apply List.Forall_forall; intros p Hin; apply in_map_iff in Hin as (s & <- & _);
      reflexivity.
Qed.

Lemma drawScreen_service_colours_witness :
  let st := last_state (world (fetchStatus (H := utc_time) config_example
                                 (sample_ok sample_doc) initial_world)) in
  let screen := events (drawScreen (H := utc_time) config_example sample_ambient
                          st false initial_world) in
  inked TFT_BLACK 5 40 screen = [("UP"%string, TFT_GREEN)] /\
  inked TFT_BLACK 5 60 screen = [("DN"%string, TFT_RED)] /\
  inked TFT_BLACK 35 60 screen = [("minecraft"%string, TFT_WHITE)].
Proof.
  intros st screen.
  destruct (drawScreen_service_colours (H := utc_time) config_example sample_ambient
              st false initial_world TFT_BLACK) as [Hrows _].
  split; [|split].
  - refine (proj1 (Hrows 0%nat _)). vm_compute. lia.
  - refine (proj1 (Hrows 1%nat _)). vm_compute. lia.
  - refine (proj2 (Hrows 1%nat _)). vm_compute. lia.
Defined.

(** X2: when a server time is known and the C library reports an hour
    in 0..23, a minute in 0..59, a day in 1..31 and a month in 0..11 for
    the current time, the clock is drawn as "HH:MM" and the date as
    "DD/MM", each number as exactly two digits with a leading zero below
    10, the month counted from 1. *)
Theorem drawScreen_clock_format `{TimeLib}
    (cfg : Config) (amb : Ambient) (st : StatusState) (offline : bool) (w : World) :
  0 < time_t_bits -> in_signed_range time_t_bits (time_now amb) ->
  server_time st <> 0 ->
  let t := localtime_r (time_now amb) in
  0 <= tm_hour t < 24 -> 0 <= tm_min t < 60 ->
  1 <= tm_mday t <= 31 -> 0 <= tm_mon t <= 11 ->
  let screen := events (drawScreen cfg amb st offline w) in
  drawn_at 5 5 screen
  = [(two_digits (tm_hour t) ++ String ":" (two_digits (tm_min t)))%string] /\
  drawn_at 120 5 screen
  = [(two_digits (tm_mday t) ++ String "/" (two_digits (tm_mon t + 1)))%string].
Proof.
  intros Hb Hn Hst t Hh Hm Hd Hmo screen. unfold screen.
  rewrite !drawScreen_top. unfold draw_top.
  apply Z.eqb_neq in Hst. rewrite Hst. cbn [negb].
  rewrite (drift_corrected_now _ _ Hb Hn). fold t.
  rewrite wrap_int_small by (unfold INT_MIN, INT_MAX; simpl; lia).
  destruct (formatTwo_pads (tm_hour t)) as [-> _]; [lia|].
  destruct (formatTwo_pads (tm_min t)) as [-> _]; [lia|].
  destruct (formatTwo_pads (tm_mday t)) as [-> _]; [lia|].
  destruct (formatTwo_pads (tm_mon t + 1)) as [-> _]; [lia|].
  cbn. settle_positions. split; reflexivity.
Qed.

Lemma drawScreen_clock_format_witness :
  let st := set_server_time 1 initial_state in
  let amb := {| time_now := 1709629500; time_footer := 0; tft_width := 320;
                local_ip := EmptyString |} in
  let screen := events (drawScreen (H := utc_time) config_example amb st false
                          initial_world) in
  (0 < 64 /\ in_signed_range 64 1709629500 /\ server_time st <> 0) /\
  drawn_at 5 5 screen = ["09:05"%string] /\
  drawn_at 120 5 screen = ["05/03"%string].
Proof.
  intros st amb screen.
  assert (Hb : 0 < 64) by lia.
  assert (Hn : in_signed_range 64 1709629500) by (unfold in_signed_range; simpl; lia).
  assert (Hst : server_time st <> 0) by (simpl; lia).
  split; [exact (conj Hb (conj Hn Hst))|].
  assert (Hrange : forall lo v hi, (lo <=? v) && (v <=? hi) = true -> lo <= v <= hi)
    by (intros lo v hi Hlv; apply andb_true_iff in Hlv as [Hl Hh]; lia).
  assert (Hrange' : forall lo v hi, (lo <=? v) && (v <? hi) = true -> lo <= v < hi)
    by (intros lo v hi Hlv; apply andb_true_iff in Hlv as [Hl Hh]; lia).
  pose (t := @localtime_r utc_time 1709629500).
  exact (drawScreen_clock_format (H := utc_time) config_example amb st false
           initial_world Hb Hn Hst
           (Hrange' 0 (tm_hour t) 24 eq_refl) (Hrange' 0 (tm_min t) 60 eq_refl)
           (Hrange 1 (tm_mday t) 31 eq_refl) (Hrange 0 (tm_mon t) 11 eq_refl)).
Defined.

(** X4: for a snapshot without services, the middle block is the single
    line "No services" at the first row, no name is drawn, and the bottom
    block follows one row lower, the bottom line at height 70 and the word
    line at height 90. *)
Theorem drawScreen_no_services `{TimeLib}
    (cfg : Config) (amb : Ambient) (st : StatusState) (offline : bool) (w : World) :
  service_count st = 0%nat ->
  let screen := events (drawScreen cfg amb st offline w) in
  inked TFT_BLACK 5 40 screen = [("No services"%string, TFT_WHITE)] /\
  (forall y, 40 <= y -> drawn_at 35 y screen = []) /\
  drawn_at 5 70 screen
  = [Str.truncate 22 (if offline then "API offline"%string else bottom_line st)] /\
  drawn_at 5 90 screen = [Str.truncate 22 ("Word: " ++ word st)%string].
Proof.
  intros Hc screen. unfold screen.
  destruct (drawScreen_bottom_lines cfg amb st offline w) as [Hbottom Hword].
  assert (Hr : rows_end st = 60) by (unfold rows_end; now rewrite Hc).
  rewrite Hr in Hbottom, Hword. change (60 + 10) with 70 in Hbottom.
  change (60 + 30) with 90 in Hword.
  destruct (draw_top_run amb st w) as [_ Ht].
  destruct (drawFace_run (tft_width amb) (expr_state st) w) as [_ Hf].
  destruct (draw_footer_run cfg amb offline (rows_end st) w) as [_ Hd].
  split; [|split; [|split; assumption]].
  - rewrite drawScreen_inked, draw_bottom_events.
    rewrite Ht, Hf, Hd by lia. rewrite Hr.
    unfold draw_middle. rewrite Hc. cbn. settle_positions. reflexivity.
  - intros y Hy.
    rewrite drawScreen_events, !drawn_at_app, draw_bottom_events.
    rewrite Ht, Hf by lia. rewrite Hr.
    unfold draw_middle, draw_footer. rewrite Hc.
    destruct (MINERVA_DEBUG cfg); cbn.
    all: replace (5 =? 35) with false by reflexivity; rewrite ?andb_false_r; reflexivity.
Qed.

Lemma drawScreen_no_services_witness :
  let screen := events (drawScreen (H := utc_time) config_example sample_ambient
                          initial_state true initial_world) in
  service_count initial_state = 0%nat /\
  inked TFT_BLACK 5 40 screen = [("No services"%string, TFT_WHITE)] /\
  drawn_at 5 70 screen = ["API offline"%string].
Proof.
  intros screen.
  destruct (drawScreen_no_services (H := utc_time) config_example sample_ambient
              initial_state true initial_world eq_refl) as (Hline & _ & Hbottom & _).
  split; [reflexivity|]. split; [exact Hline|exact Hbottom].
Defined.

Lemma same_rows (l l' : list ServiceItem) (k i : nat) :
  take k l = take k l' -> (i < k)%nat -> l !!! i = l' !!! i.
Proof.
  intros Ht Hi.
  rewrite <- (lookup_total_take_lt l k i), <- (lookup_total_take_lt l' k i) by exact Hi.
  now rewrite Ht.
Qed.

(** X5: a render shows nothing of a snapshot but its texts, its first
    [service_count] services (four at most) and whether its server time
    is known: two snapshots that agree on these give the same drawing
    commands, whatever their [expr_message], the array entries past the
    count, the value of a known server time, and the globals. *)
Theorem drawScreen_shows_only_the_view `{TimeLib}
    (cfg : Config) (amb : Ambient) (st st' : StatusState) (offline : bool) (w w' : World) :
  0 < time_t_bits -> in_signed_range time_t_bits (time_now amb) ->
  same_view st st' ->
  events (drawScreen cfg amb st offline w) = events (drawScreen cfg amb st' offline w').
Proof.
  intros Hb Hn (Hbl & Hwd & Hes & Hc & Hrows & Htime).
  assert (Hr : rows_end st = rows_end st') by (unfold rows_end; now rewrite Hc).
  rewrite !drawScreen_events, <- Hr.
  assert (Htop : events (draw_top amb st w) = events (draw_top amb st' w')).
  { unfold draw_top. rewrite !(drift_corrected_now _ _ Hb Hn).
    destruct (Z.eq_dec (server_time st) 0) as [Hz|Hnz].
    - rewrite Hz, (proj1 Htime Hz). reflexivity.
    - assert (Hnz' : server_time st' <> 0) by (intros Hz; apply Hnz, Htime, Hz).
      apply Z.eqb_neq in Hnz, Hnz'. rewrite Hnz, Hnz'. reflexivity. }
  assert (Hface : events (drawFace (tft_width amb) (expr_state st) w)
                  = events (drawFace (tft_width amb) (expr_state st') w')).
  { rewrite <- Hes. unfold drawFace.
    destruct (String.eqb (expr_state st) "warning" || String.eqb (expr_state st) "error");
      [|destruct (String.eqb (expr_state st) "thinking");
        [|destruct (String.eqb (expr_state st) "happy")]]; reflexivity. }
  assert (Hmid : events (draw_middle st w) = events (draw_middle st' w')).
  { unfold draw_middle. rewrite <- Hc in *.
    destruct (service_count st) as [|[|[|[|[|n]]]]]; cbn in Hrows |- *;
      repeat match goal with
        | |- context [services st !!! ?i] =>
            rewrite (same_rows (services st) (services st') _ i Hrows) by lia
        end;
      reflexivity. }
  rewrite Htop, Hface, Hmid, !draw_bottom_events, Hbl, Hwd.
  do 5 f_equal.
  unfold draw_footer. destruct (MINERVA_DEBUG cfg); reflexivity.
Qed.

Lemma drawScreen_shows_only_the_view_witness :
  let rows := [ {| name := "cartofia"; is_up := true |};
                {| name := "minecraft"; is_up := false |} ]%string in
  let st := {| bottom_line := "Backups are late"; word := "None";
               services := rows ++ [empty_item; empty_item];
               service_count := 2; server_time := 1709649000;
               expr_state := "idle"; expr_message := EmptyString |}%string in
  let st' := {| bottom_line := "Backups are late"; word := "None";
                services := rows ++ [ {| name := "stale"; is_up := true |}; empty_item ];
                service_count := 2; server_time := 86400;
                expr_state := "idle"; expr_message := "disk almost full" |}%string in
  (0 < 64 /\ in_signed_range 64 (time_now sample_ambient) /\ same_view st st') /\
  events (drawScreen (H := utc_time) config_example sample_ambient st false initial_world)
  = events (drawScreen (H := utc_time) config_example sample_ambient st' false
              {| last_state := st'; last_poll := 7 |}).
Proof.
  intros rows st st'.
  assert (Hb : 0 < 64) by lia.
  assert (Hn : in_signed_range 64 (time_now sample_ambient))
    by (unfold in_signed_range; simpl; lia).
  assert (Hv : same_view st st').
  { unfold same_view. repeat split; try reflexivity; intros Hz; discriminate Hz. }
  split; [exact (conj Hb (conj Hn Hv))|].
  exact (drawScreen_shows_only_the_view (H := utc_time) config_example sample_ambient
           st st' false initial_world {| last_state := st'; last_poll := 7 |} Hb Hn Hv).
Defined.

Lemma draw_footer_outside `{TimeLib} (cfg : Config) (amb : Ambient) (offline : bool)
    (y0 : Z) (w : World) (x y : Z) :
  y < y0 + 50 \/ y0 + 65 < y \/ x <> 5 ->
  drawn_at x y (events (draw_footer cfg amb offline y0 w)) = [].
Proof.
  intros Hpos. unfold draw_footer. destruct (MINERVA_DEBUG cfg); cbn; [|reflexivity].
  destruct (Z.eq_dec x 5) as [->|Hx].
  - settle_positions. reflexivity.
  - replace (5 =? x) with false by (symmetry; apply Z.eqb_neq; lia).
    rewrite !andb_false_r. reflexivity.
Qed.

(** Outside the four text columns, no block draws a string. *)
Lemma draw_blocks_columns `{TimeLib} (cfg : Config) (amb : Ambient) (st : StatusState)
    (offline : bool) (y0 : Z) (w : World) (x y : Z) :
  x <> 5 -> x <> 35 -> x <> 120 -> x <> tft_width amb - 27 ->
  drawn_at x y (events (draw_top amb st w)) = [] /\
  drawn_at x y (events (drawFace (tft_width amb) (expr_state st) w)) = [] /\
  drawn_at x y (events (draw_middle st w)) = [] /\
  drawn_at x y (events (draw_bottom st offline y0 w)) = [].
Proof.
  intros H5 H35 H120 Hface.
  assert (E5 : (5 =? x) = false) by (apply Z.eqb_neq; lia).
  assert (E35 : (35 =? x) = false) by (apply Z.eqb_neq; lia).
  assert (E120 : (120 =? x) = false) by (apply Z.eqb_neq; lia).
  assert (Ef : (tft_width amb - 20 - 7 =? x) = false) by (apply Z.eqb_neq; lia).
  repeat split.
  - unfold draw_top. destruct (negb (server_time st =? 0)); cbn;
      rewrite ?E5, ?E120, ?andb_false_r; reflexivity.
  - unfold drawFace.
    destruct (String.eqb (expr_state st) "warning" || String.eqb (expr_state st) "error");
      [|destruct (String.eqb (expr_state st) "thinking");
        [|destruct (String.eqb (expr_state st) "happy")]];
      cbn; rewrite Ef, andb_false_r; reflexivity.
  - unfold draw_middle.
    destruct (service_count st) as [|[|[|[|[|n]]]]]; cbn;
      rewrite ?E5, ?E35, ?andb_false_r; reflexivity.
  - rewrite draw_bottom_events. cbn. rewrite E5, !andb_false_r. reflexivity.
Qed.

(** X6: with [MINERVA_DEBUG] set, two footer lines are drawn 50 and 65
    pixels below the end of the service rows: the local address (or
    "IP: API offline" for an offline render) and "Upd: " with the time of
    the render; with [MINERVA_DEBUG] clear, nothing is drawn below the
    word line. *)
Theorem drawScreen_debug_footer `{TimeLib}
    (cfg : Config) (amb : Ambient) (st : StatusState) (offline : bool) (w : World) :
  let screen := events (drawScreen cfg amb st offline w) in
  let t := localtime_r (time_footer amb) in
  (MINERVA_DEBUG cfg = true ->
   drawn_at 5 (rows_end st + 50) screen
   = [if offline then "IP: API offline"%string else ("IP: " ++ local_ip amb)%string] /\
   drawn_at 5 (rows_end st + 65) screen
   = [("Upd: " ++ formatTwo (tm_hour t) ++ ":" ++ formatTwo (tm_min t)
       ++ ":" ++ formatTwo (tm_sec t))%string]) /\
  (MINERVA_DEBUG cfg = false ->
   forall x y, rows_end st + 30 < y -> drawn_at x y screen = []).
Proof.
  intros screen t. unfold screen, t.
  pose proof (rows_end_range st) as Hr.
  destruct (draw_top_run amb st w) as [_ Ht].
  destruct (drawFace_run (tft_width amb) (expr_state st) w) as [_ Hf].
  destruct (draw_middle_run st w) as (_ & _ & Hm).
  split.
  - intros Hdbg.
    rewrite !drawScreen_events, !drawn_at_app, draw_bottom_events.
    rewrite !Ht, !Hf, !Hm by lia.
    unfold draw_footer. rewrite Hdbg. cbn. settle_positions.
    split; reflexivity.
  - intros Hdbg x y Hy.
    rewrite !drawScreen_events, !drawn_at_app, draw_bottom_events.
    rewrite Ht, Hf, Hm by lia.
    unfold draw_footer. rewrite Hdbg. cbn. settle_positions. reflexivity.
Qed.

Lemma drawScreen_debug_footer_witness :
  let cfg := {| WIFI_SSID := "lab"; WIFI_PASS := "secret"; MINERVA_HOST := "minerva.lan";
                MINERVA_PORT := 8000; TIMEZONE_OFFSET_SECONDS := 0;
                MINERVA_DEBUG := true |}%string in
  let screen := events (drawScreen (H := utc_time) cfg sample_ambient initial_state false
                          initial_world) in
  MINERVA_DEBUG cfg = true /\
  drawn_at 5 110 screen = ["IP: 192.168.1.50"%string] /\
  drawn_at 5 125 screen = ["Upd: 14:31:01"%string].
Proof.
  intros cfg screen.
  destruct (drawScreen_debug_footer (H := utc_time) cfg sample_ambient initial_state false
              initial_world) as [Hon _].
  split; [reflexivity|]. exact (Hon eq_refl).
Defined.

(** X7: a render draws text only in four columns (x = 5, 35, 120 and the
    face at [tft.width() - 27]) and only at heights from 5 to 185. *)
Theorem drawScreen_text_area `{TimeLib}
    (cfg : Config) (amb : Ambient) (st : StatusState) (offline : bool) (w : World) :
  let screen := events (drawScreen cfg amb st offline w) in
  (forall x y, y < 5 \/ 185 < y -> drawn_at x y screen = []) /\
  (forall x y, x <> 5 -> x <> 35 -> x <> 120 -> x <> tft_width amb - 27 ->
               drawn_at x y screen = []).
Proof.
  intros screen. unfold screen.
  pose proof (rows_end_range st) as Hr.
  split.
  - intros x y Hy.
    destruct (draw_top_run amb st w) as [_ Ht].
    destruct (drawFace_run (tft_width amb) (expr_state st) w) as [_ Hf].
    destruct (draw_middle_run st w) as (_ & _ & Hm).
    rewrite drawScreen_events, !drawn_at_app, draw_bottom_events.
    rewrite Ht, Hf, Hm by lia.
    rewrite draw_footer_outside by lia.
    cbn. settle_positions. reflexivity.
  - intros x y H5 H35 H120 Hface.
    destruct (draw_blocks_columns cfg amb st offline (rows_end st) w x y H5 H35 H120 Hface)
      as (Ht & Hf & Hm & Hb).
    rewrite drawScreen_events, !drawn_at_app.
    rewrite Ht, Hf, Hm, Hb.
    rewrite draw_footer_outside by (right; right; exact H5).
    reflexivity.
Qed.

(** ** More on [fetchStatus] *)

(** The events of a fetch. *)
Lemma fetchStatus_trace `{TimeLib} (cfg : Config) (http : HttpExchange) (w : World) :
  events (fetchStatus cfg http w)
  = HttpBegin ("http://" ++ MINERVA_HOST cfg ++ ":" ++ Str.String_of_int (MINERVA_PORT cfg)
               ++ "/status/compact")%string
    :: (if begin_ok http then [HttpGet; HttpEnd] else []).
Proof.
  destruct http as [b code bd]. unfold fetchStatus, events; cbn.
  destruct b; cbn; [|reflexivity].
  destruct (code =? HTTP_CODE_OK); cbn; [|reflexivity].
  destruct bd as [e|doc]; cbn; [reflexivity|].
  destruct (as_cstr (member "server_time" doc)) as [s|]; cbn; [|reflexivity].
  destruct (Scanf.sscanf s Scanf.server_time_format) as [n vals].
  destruct (n =? 6); cbn; [|reflexivity].
  destruct vals as [|a [|b [|c [|d [|e [|f [|g l]]]]]]]; reflexivity.
Qed.

(** X8: a fetch opens one HTTP session on
    "http://<host>:<port>/status/compact"; when [http.begin] fails nothing
    else happens, and otherwise one GET is sent and the session is ended
    exactly once, whether the fetch then fails or succeeds.  A fetch
    draws nothing and never sleeps. *)
Theorem fetchStatus_http_session `{TimeLib} (cfg : Config) (http : HttpExchange) (w : World) :
  let url := ("http://" ++ MINERVA_HOST cfg ++ ":" ++ Str.String_of_int (MINERVA_PORT cfg)
              ++ "/status/compact")%string in
  (begin_ok http = false -> events (fetchStatus cfg http w) = [HttpBegin url]) /\
  (begin_ok http = true ->
   events (fetchStatus cfg http w) = [HttpBegin url; HttpGet; HttpEnd]) /\
  (forall x y, drawn_at x y (events (fetchStatus cfg http w)) = []) /\
  total_delay (events (fetchStatus cfg http w)) = 0.
Proof.
  intros url. rewrite fetchStatus_trace. fold url.
  destruct (begin_ok http); repeat split; intros; try discriminate; reflexivity.
Qed.

Lemma fetchStatus_http_session_witness :
  let http := {| begin_ok := true; status_code := 503; body := ParseError EmptyInput |} in
  begin_ok http = true /\
  events (fetchStatus (H := utc_time) config_example http initial_world)
  = [HttpBegin "http://192.168.1.100:8000/status/compact"; HttpGet; HttpEnd].
Proof.
  intros http. split; [reflexivity|].
  destruct (fetchStatus_http_session (H := utc_time) config_example http initial_world)
    as (_ & Hok & _).
  exact (Hok eq_refl).
Defined.

Lemma read_services_tail (entries : list Json) (out : StatusState) :
  well_formed out -> (service_count out <= 4)%nat ->
  drop (service_count (read_services entries out)) (services (read_services entries out))
  = drop (service_count (read_services entries out)) (services out).
Proof.
  unfold well_formed.
  revert out. induction entries as [|entry rest IH]; intros out Hlen Hcnt;
    cbn [read_services]; [reflexivity|].
  destruct (Nat.leb_spec 4 (service_count out)) as [Hfull|Hroom]; [reflexivity|].
  set (c := service_count out) in *.
  set (out1 := set_item_is_up _ _ (set_item_name c _ out)).
  assert (Hs1 : services out1 = <[c := service_of_json entry]> (services out)).
  { unfold out1.
    replace (service_count (set_item_name c
               (Str.String_of_cstr (as_cstr (member "name" (as_object entry)))) out))
      with c by reflexivity.
    apply read_services_entry. lia. }
  assert (Hc1 : service_count out1 = c) by reflexivity.
  rewrite Hc1.
  assert (Hwf2 : well_formed (set_service_count (S c) out1)).
  { unfold well_formed. cbn [services set_service_count].
    rewrite Hs1, length_insert. exact Hlen. }
  assert (Hc2 : (service_count (set_service_count (S c) out1) <= 4)%nat)
    by (cbn [service_count set_service_count]; lia).
  destruct (read_services_spec rest _ Hwf2 Hc2) as (_ & Hn & _).
  rewrite (IH _ Hwf2 Hc2).
  cbn [services set_service_count service_count] in Hn |- *.
  rewrite Hs1. apply drop_insert_lt. rewrite Hn. lia.
Qed.

(** The whole array after the assignments of a successful fetch. *)
Lemma stored_fields_array (doc : Json) (out : StatusState) :
  well_formed out ->
  services (stored_fields doc out)
  = map service_of_json (take 4 (as_array (member "services" doc)))
    ++ drop (Nat.min (length (as_array (member "services" doc))) 4) (services out).
Proof.
  intros Hwf.
  destruct (stored_fields_services doc out Hwf) as (_ & Hn & Ht).
  rewrite <- (firstn_skipn (service_count (stored_fields doc out))
                (services (stored_fields doc out))) at 1.
  change (firstn ?n ?l) with (take n l). change (skipn ?n ?l) with (drop n l).
  rewrite Ht. f_equal.
  unfold stored_fields in *.
  rewrite read_services_tail.
  - rewrite Hn. reflexivity.
  - exact Hwf.
  - cbn. lia.
Qed.

Lemma stored_fields_texts (doc : Json) (out : StatusState) :
  bottom_line (stored_fields doc out) = or_cstr (member "bottom_line" doc) "All good" /\
  word (stored_fields doc out) = or_cstr (member "word" (member "word_of_day" doc)) "None" /\
  expr_state (stored_fields doc out)
  = or_cstr (member "state" (member "expression" doc)) "idle" /\
  expr_message (stored_fields doc out)
  = or_cstr (member "message" (member "expression" doc)) EmptyString.
Proof.
  unfold stored_fields.
  match goal with
  | |- context [read_services ?es ?o] =>
      destruct (read_services_texts es o) as (-> & -> & -> & ->)
  end.
  now repeat split.
Qed.

(** X11: a successful fetch writes the array only below the new
    [service_count]: the entries at and past it keep what they held
    before, so a shorter payload leaves the surplus of a longer one in
    place, out of reach of the count. *)
Theorem fetchStatus_keeps_array_tail `{TimeLib}
    (cfg : Config) (http : HttpExchange) (doc : Json) (w : World) (i : nat) :
  fetch_parses http doc -> well_formed (last_state w) ->
  (service_count (last_state (world (fetchStatus cfg http w))) <= i)%nat ->
  services (last_state (world (fetchStatus cfg http w))) !! i
  = services (last_state w) !! i.
Proof.
  intros Hp Hwf Hi.
  destruct (fetchStatus_parsed cfg http doc w Hp) as (_ & _ & t & _ & Hst).
  rewrite Hst in *. cbn [services service_count set_server_time] in *.
  destruct (stored_fields_services doc (last_state w) Hwf) as (_ & Hn & _).
  rewrite stored_fields_array by exact Hwf.
  rewrite Hn in Hi.
  assert (Hlen : length (map service_of_json (take 4 (as_array (member "services" doc))))
                 = Nat.min (length (as_array (member "services" doc))) 4).
  { rewrite length_map, length_take. lia. }
  rewrite lookup_app_r by (rewrite Hlen; exact Hi).
  rewrite Hlen, lookup_drop. f_equal. lia.
Qed.

Lemma fetchStatus_keeps_array_tail_witness :
  let four := JObject [("services", JArray [JObject [("name", JString "a")];
                                            JObject [("name", JString "b")];
                                            JObject [("name", JString "c")];
                                            JObject [("name", JString "d")]])]%string in
  let one := JObject [("services", JArray [JObject [("name", JString "z")]])]%string in
  let w1 := world (fetchStatus (H := utc_time) config_example (sample_ok four) initial_world) in
  let st2 := last_state (world (fetchStatus (H := utc_time) config_example (sample_ok one) w1)) in
  (fetch_parses (sample_ok one) one /\ well_formed (last_state w1) /\
   (service_count st2 <= 2)%nat) /\
  service_count st2 = 1%nat /\
  services st2 !! 2%nat = Some {| name := "c"; is_up := false |}.
Proof.
  intros four one w1 st2.
  assert (Hp : fetch_parses (sample_ok one) one) by now repeat split.
  assert (Hwf : well_formed (last_state w1)) by reflexivity.
  assert (Hi : (service_count st2 <= 2)%nat) by (vm_compute; lia).
  split; [exact (conj Hp (conj Hwf Hi))|]. split; [reflexivity|].
  unfold st2.
  rewrite (fetchStatus_keeps_array_tail (H := utc_time) config_example (sample_ok one) one
             w1 2%nat Hp Hwf Hi).
  reflexivity.
Defined.

Lemma state_eq (a b : StatusState) :
  bottom_line a = bottom_line b -> word a = word b -> services a = services b ->
  service_count a = service_count b -> server_time a = server_time b ->
  expr_state a = expr_state b -> expr_message a = expr_message b -> a = b.
Proof. destruct a, b; cbn; intros; subst; reflexivity. Qed.

Lemma world_eq (a b : World) :
  last_state a = last_state b -> last_poll a = last_poll b -> a = b.
Proof. destruct a, b; cbn; intros; subst; reflexivity. Qed.

(** The outcome for [server_time] is the same whatever was stored, up
    to the stored value itself when the payload gives none. *)
Lemma server_time_outcome_cases `{TimeLib} (doc : Json) (old old' t t' : Z) :
  server_time_outcome doc old t -> server_time_outcome doc old' t' ->
  (t = old /\ t' = old') \/ t = t'.
Proof.
  intros Ho Ho'.
  inversion Ho as [Hn|s Hs Hc|s y mo d h mi se Hs Hc];
    inversion Ho' as [Hn'|s' Hs' Hc'|s' y' mo' d' h' mi' se' Hs' Hc']; subst;
    try (left; split; reflexivity).
  all: try (rewrite Hs in Hn'; discriminate).
  all: try (rewrite Hs' in Hn; discriminate).
  all: rewrite Hs in Hs'; injection Hs' as <-.
  - rewrite Hc' in Hc. now elim Hc.
  - rewrite Hc in Hc'. now elim Hc'.
  - rewrite Hc in Hc'. injection Hc' as <- <- <- <- <- <-. right. reflexivity.
Qed.

(** X9: fetching is idempotent: a second fetch that sees the same
    exchange as the first leaves the globals exactly as the first left
    them. *)
Theorem fetchStatus_idempotent `{TimeLib} (cfg : Config) (http : HttpExchange) (w : World) :
  well_formed (last_state w) ->
  world (fetchStatus cfg http (world (fetchStatus cfg http w)))
  = world (fetchStatus cfg http w).
Proof.
  intros Hwf. destruct (fetch_outcome http) as [Hf|[doc Hp]].
  - destruct (fetchStatus_failed cfg http w Hf) as [_ ->].
    now destruct (fetchStatus_failed cfg http w Hf) as [_ ->].
  - destruct (fetchStatus_parsed cfg http doc w Hp) as (_ & Hpoll1 & t1 & Ho1 & Hst1).
    set (w1 := world (fetchStatus cfg http w)) in *.
    destruct (fetchStatus_parsed cfg http doc w1 Hp) as (_ & Hpoll2 & t2 & Ho2 & Hst2).
    apply world_eq; [|exact Hpoll2].
    destruct (stored_fields_services doc (last_state w) Hwf) as (Hwf1 & Hn1 & _).
    assert (Hwf1' : well_formed (last_state w1)) by (rewrite Hst1; exact Hwf1).
    destruct (stored_fields_services doc (last_state w1) Hwf1') as (_ & Hn2 & _).
    destruct (stored_fields_texts doc (last_state w)) as (Hb1 & Hw1 & He1 & Hm1).
    destruct (stored_fields_texts doc (last_state w1)) as (Hb2 & Hw2 & He2 & Hm2).
    assert (Ht : t2 = t1).
    { assert (Hold : server_time (last_state w1) = t1) by (rewrite Hst1; reflexivity).
      rewrite Hold in Ho2.
      destruct (server_time_outcome_cases doc _ _ _ _ Ho1 Ho2) as [[_ ->]| ->]; reflexivity. }
    rewrite Hst2, Ht. apply state_eq; rewrite ?Hst1;
      cbn [bottom_line word services service_count server_time expr_state expr_message
           set_server_time]; try congruence.
    rewrite <- Hst1.
    rewrite (stored_fields_array doc (last_state w1) Hwf1'), Hst1.
    cbn [services set_server_time].
    rewrite (stored_fields_array doc (last_state w) Hwf).
    f_equal. apply drop_app_length'.
    rewrite length_map, length_take. lia.
Qed.

Lemma fetchStatus_idempotent_witness :
  let w1 := world (fetchStatus (H := utc_time) config_example (sample_ok sample_doc)
                     initial_world) in
  well_formed (last_state initial_world) /\
  world (fetchStatus (H := utc_time) config_example (sample_ok sample_doc) w1) = w1.
Proof.
  intros w1. split; [reflexivity|].
  exact (fetchStatus_idempotent (H := utc_time) config_example (sample_ok sample_doc)
           initial_world eq_refl).
Defined.

(** X10: after a successful fetch, what a render can show of the
    snapshot, and [expr_message], come from the payload alone, except
    that a payload without a usable [server_time] leaves the clock known
    or unknown as it was: two snapshots that agree on that are the same
    to a render after fetching the same payload. *)
Theorem fetchStatus_forgets_history `{TimeLib}
    (cfg : Config) (http : HttpExchange) (doc : Json) (w w' : World) :
  fetch_parses http doc ->
  well_formed (last_state w) -> well_formed (last_state w') ->
  (server_time (last_state w) = 0 <-> server_time (last_state w') = 0) ->
  let st := last_state (world (fetchStatus cfg http w)) in
  let st' := last_state (world (fetchStatus cfg http w')) in
  same_view st st' /\ expr_message st = expr_message st'.
Proof.
  intros Hp Hwf Hwf' Hknown st st'.
  destruct (fetchStatus_parsed cfg http doc w Hp) as (_ & _ & t & Ho & Hst).
  destruct (fetchStatus_parsed cfg http doc w' Hp) as (_ & _ & t' & Ho' & Hst').
  destruct (stored_fields_services doc (last_state w) Hwf) as (_ & Hn & Hrows).
  destruct (stored_fields_services doc (last_state w') Hwf') as (_ & Hn' & Hrows').
  destruct (stored_fields_texts doc (last_state w)) as (Hb & Hw & He & Hm).
  destruct (stored_fields_texts doc (last_state w')) as (Hb' & Hw' & He' & Hm').
  unfold st, st', same_view. rewrite Hst, Hst'.
  cbn [bottom_line word services service_count server_time expr_state expr_message
       set_server_time].
  repeat split; try congruence.
  - rewrite Hn, Hn' in *.
    rewrite !Nat.min_l by lia. congruence.
  - intros Hz.
    destruct (server_time_outcome_cases doc _ _ _ _ Ho Ho') as [[-> ->]| <-];
      [apply Hknown|]; exact Hz.
  - intros Hz.
    destruct (server_time_outcome_cases doc _ _ _ _ Ho Ho') as [[-> ->]| ->];
      [apply Hknown|]; exact Hz.
Qed.

Lemma fetchStatus_forgets_history_witness :
  let four := JObject [("bottom_line", JString "Four up");
                       ("services", JArray [JObject [("name", JString "a")];
                                            JObject [("name", JString "b")];
                                            JObject [("name", JString "c")];
                                            JObject [("name", JString "d")]])]%string in
  let one := JObject [("services", JArray [JObject [("name", JString "z")]])]%string in
  let w := world (fetchStatus (H := utc_time) config_example (sample_ok four) initial_world) in
  let st := last_state (world (fetchStatus (H := utc_time) config_example (sample_ok one) w)) in
  let st' := last_state (world (fetchStatus (H := utc_time) config_example (sample_ok one)
                                  initial_world)) in
  (fetch_parses (sample_ok one) one /\ well_formed (last_state w) /\
   well_formed (last_state initial_world)) /\
  same_view st st' /\ services st <> services st'.
Proof.
  intros four one w st st'.
  assert (Hp : fetch_parses (sample_ok one) one) by now repeat split.
  assert (Hwf : well_formed (last_state w)) by reflexivity.
  assert (Hwf' : well_formed (last_state initial_world)) by reflexivity.
  split; [exact (conj Hp (conj Hwf Hwf'))|].
  split.
  - apply (fetchStatus_forgets_history (H := utc_time) config_example (sample_ok one) one
             w initial_world Hp Hwf Hwf').
    split; reflexivity.
  - vm_compute. discriminate.
Defined.

(** ** More on [loop] and [setup] *)

(** A render emits panel commands only. *)
Lemma drawScreen_panel_only `{TimeLib} (cfg : Config) (amb : Ambient) (st : StatusState)
    (offline : bool) (w : World) :
  List.Forall (fun e => exists c, e = Tft c) (events (drawScreen cfg amb st offline w)).
Proof.
  rewrite drawScreen_events, draw_bottom_events.
  unfold draw_top, drawFace, draw_middle, draw_footer.
  repeat (apply Forall_app; split).
  - repeat (constructor; [eexists; reflexivity|]); constructor.
  - destruct (negb (server_time st =? 0)); cbn;
      repeat (constructor; [eexists; reflexivity|]); constructor.
  - destruct (String.eqb (expr_state st) "warning" || String.eqb (expr_state st) "error");
      [|destruct (String.eqb (expr_state st) "thinking");
        [|destruct (String.eqb (expr_state st) "happy")]];
      cbn; repeat (constructor; [eexists; reflexivity|]); constructor.
  - destruct (service_count st) as [|[|[|[|[|n]]]]]; cbn;
      repeat (constructor; [eexists; reflexivity|]); constructor.
  - repeat (constructor; [eexists; reflexivity|]); constructor.
  - destruct (MINERVA_DEBUG cfg); cbn;
      repeat (constructor; [eexists; reflexivity|]); constructor.
Qed.

Lemma panel_only_quiet (es : list Event) :
  List.Forall (fun e => exists c, e = Tft c) es ->
  total_delay es = 0 /\ fetch_attempted es = false.
Proof.
  induction 1 as [|e es [c ->] _ [IH1 IH2]]; [now split|].
  cbn [total_delay fetch_attempted existsb orb]. now split.
Qed.

Lemma total_delay_app (es1 es2 : list Event) :
  total_delay (es1 ++ es2) = total_delay es1 + total_delay es2.
Proof.
  induction es1 as [|e es1 IH]; [reflexivity|].
  destruct e; cbn [app total_delay]; lia.
Qed.


Lemma iterate_loop_cons `{TimeLib} (cfg : Config) (inp : LoopInput) (inps : list LoopInput)
    (w : World) :
  events (iterate_loop cfg (inp :: inps) w)
  = events (loop cfg inp w) ++ events (iterate_loop cfg inps (world (loop cfg inp w))) /\
  world (iterate_loop cfg (inp :: inps) w)
  = world (iterate_loop cfg inps (world (loop cfg inp w))).
Proof. cbn [iterate_loop]. now rewrite events_bind, world_bind. Qed.

(** Iterations inside the interval only sleep. *)
Lemma iterate_loop_idle `{TimeLib} (cfg : Config) (inps : list LoopInput) (w : World) :
  List.Forall (fun inp => wrap_ulong (now_ms inp - last_poll w) <= POLL_INTERVAL_MS) inps ->
  events (iterate_loop cfg inps w) = repeat (Delay 200) (length inps) /\
  world (iterate_loop cfg inps w) = w.
Proof.
  induction 1 as [|inp inps Hinp _ [IHe IHw]]; [now split|].
  destruct (iterate_loop_cons cfg inp inps w) as [-> ->].
  destruct (loop_run cfg inp w) as [_ Hshut].
  destruct (Hshut Hinp) as [-> ->].
  rewrite IHe, IHw. now split.
Qed.

(** X12: after an iteration that attempts a fetch at the reading [t] of
    [millis()], whether the fetch fails or succeeds, the iterations whose
    readings are within 45000 ms of [t] attempt nothing and draw nothing:
    they only sleep, and the globals stay as the fetching iteration left
    them. *)
Theorem loop_rate_limit `{TimeLib}
    (cfg : Config) (inp : LoopInput) (inps : list LoopInput) (w : World) :
  POLL_INTERVAL_MS < wrap_ulong (now_ms inp - last_poll w) ->
  List.Forall (fun later => wrap_ulong (now_ms later - now_ms inp) <= POLL_INTERVAL_MS) inps ->
  events (iterate_loop cfg (inp :: inps) w)
  = events (loop cfg inp w) ++ repeat (Delay 200) (length inps) /\
  world (iterate_loop cfg (inp :: inps) w) = world (loop cfg inp w).
Proof.
  intros Hopen Hlater.
  destruct (iterate_loop_cons cfg inp inps w) as [-> ->].
  destruct (loop_run cfg inp w) as [Hrun _].
  destruct (Hrun Hopen) as [_ Hw].
  destruct (iterate_loop_idle cfg inps (world (loop cfg inp w))) as [-> ->].
  - rewrite Hw. exact Hlater.
  - now split.
Qed.

Lemma loop_rate_limit_witness :
  let failing := {| begin_ok := false; status_code := 0; body := ParseError EmptyInput |} in
  let first := {| now_ms := 45001; exchange := failing; ambient := sample_ambient |} in
  let later := [ {| now_ms := 45201; exchange := sample_ok sample_doc; ambient := sample_ambient |};
                 {| now_ms := 90001; exchange := sample_ok sample_doc; ambient := sample_ambient |} ] in
  let run := iterate_loop (H := utc_time) config_example (first :: later) initial_world in
  POLL_INTERVAL_MS < wrap_ulong (now_ms first - last_poll initial_world) /\
  last_state (world run) = initial_state /\
  last_poll (world run) = 45001.
Proof.
  intros failing first later run.
  assert (Hopen : POLL_INTERVAL_MS < wrap_ulong (now_ms first - last_poll initial_world))
    by (vm_compute; reflexivity).
  assert (Hlater : List.Forall (fun l => wrap_ulong (now_ms l - now_ms first)
                                         <= POLL_INTERVAL_MS) later)
    by (repeat (constructor; [vm_compute; discriminate|]); constructor).
  split; [exact Hopen|].
  destruct (loop_rate_limit (H := utc_time) config_example first later initial_world
              Hopen Hlater) as [_ Hw].
  unfold run. rewrite Hw. split; reflexivity.
Defined.

(** X13: the timer gate survives the roll-over of [millis()]: when the
    last attempt was at an [unsigned long] reading and [d] milliseconds,
    fewer than 2^32, have really elapsed, so that the current reading is
    the old one plus [d] reduced modulo 2^32, a fetch is attempted if
    and only if [d] exceeds 45000. *)
Theorem loop_gate_across_rollover `{TimeLib}
    (cfg : Config) (inp : LoopInput) (w : World) (d : Z) :
  0 <= last_poll w < 2 ^ 32 -> 0 <= d < 2 ^ 32 ->
  now_ms inp = (last_poll w + d) mod 2 ^ 32 ->
  (fetch_attempted (events (loop cfg inp w)) = true <-> POLL_INTERVAL_MS < d).
Proof.
  intros Hlast Hd Hnow.
  assert (Helapsed : wrap_ulong (now_ms inp - last_poll w) = d).
  { unfold wrap_ulong, wrap_unsigned. rewrite Hnow.
    rewrite Zminus_mod_idemp_l.
    replace (last_poll w + d - last_poll w) with d by lia.
    apply Z.mod_small. exact Hd. }
  destruct (loop_run cfg inp w) as [Hopen Hshut]. rewrite Helapsed in Hopen, Hshut.
  split.
  - intros Hatt. destruct (Z.lt_ge_cases POLL_INTERVAL_MS d) as [Hlt|Hge]; [exact Hlt|].
    destruct (Hshut Hge) as [He _]. rewrite He in Hatt. discriminate.
  - intros Hlt. destruct (Hopen Hlt) as [-> _]. apply fetchStatus_attempted.
Qed.

Lemma loop_gate_across_rollover_witness :
  let w := {| last_state := initial_state; last_poll := 4294967000 |} in
  let inp := {| now_ms := 49704; exchange := sample_ok sample_doc; ambient := sample_ambient |} in
  (0 <= last_poll w < 2 ^ 32 /\ 0 <= 50000 < 2 ^ 32 /\
   now_ms inp = (last_poll w + 50000) mod 2 ^ 32) /\
  fetch_attempted (events (loop (H := utc_time) config_example inp w)) = true.
Proof.
  intros w inp.
  assert (Hlast : 0 <= last_poll w < 2 ^ 32) by (simpl; lia).
  assert (Hd : 0 <= 50000 < 2 ^ 32) by lia.
  assert (Hnow : now_ms inp = (last_poll w + 50000) mod 2 ^ 32) by reflexivity.
  split; [exact (conj Hlast (conj Hd Hnow))|].
  apply (loop_gate_across_rollover (H := utc_time) config_example inp w 50000 Hlast Hd Hnow).
  unfold POLL_INTERVAL_MS. lia.
Defined.




Lemma fetch_attempted_repeat (ms : Z) (n : nat) :
  fetch_attempted (repeat (Delay ms) n) = false.
Proof. induction n as [|n IH]; [reflexivity|exact IH]. Qed.

Lemma drawn_at_repeat (ms : Z) (n : nat) (x y : Z) :
  drawn_at x y (repeat (Delay ms) n) = [].
Proof. induction n as [|n IH]; [reflexivity|exact IH]. Qed.


(** X14: nothing is fetched during the first 45 seconds after boot:
    starting from the globals as [setup] leaves them, iterations whose
    [millis()] readings are at most 45000 attempt no fetch and leave the
    snapshot empty, so the panel keeps the offline placeholder. *)
Theorem no_fetch_in_first_interval `{TimeLib}
    (cfg : Config) (down_polls : nat) (amb : Ambient) (inps : list LoopInput) :
  List.Forall (fun inp => 0 <= now_ms inp <= POLL_INTERVAL_MS) inps ->
  let booted := world (setup cfg down_polls amb initial_world) in
  fetch_attempted (events (iterate_loop cfg inps booted)) = false /\
  (forall x y, drawn_at x y (events (iterate_loop cfg inps booted)) = []) /\
  world (iterate_loop cfg inps booted) = initial_world.
Proof.
  intros Hearly booted. unfold booted. rewrite setup_world.
  destruct (iterate_loop_idle cfg inps initial_world) as [-> ->].
  - eapply List.Forall_impl; [|exact Hearly].
    intros inp Hinp. cbn [last_poll initial_world].
    unfold wrap_ulong, wrap_unsigned, POLL_INTERVAL_MS in *.
    rewrite Z.sub_0_r, Z.mod_small; lia.
  - split; [apply fetch_attempted_repeat|].
    split; [intros x y; apply drawn_at_repeat|reflexivity].
Qed.

Lemma no_fetch_in_first_interval_witness :
  let inps := [ {| now_ms := 1200; exchange := sample_ok sample_doc; ambient := sample_ambient |};
                {| now_ms := 45000; exchange := sample_ok sample_doc; ambient := sample_ambient |} ] in
  let booted := world (setup (H := utc_time) config_example 3 sample_ambient initial_world) in
  List.Forall (fun inp => 0 <= now_ms inp <= POLL_INTERVAL_MS) inps /\
  world (iterate_loop (H := utc_time) config_example inps booted) = initial_world.
Proof.
  intros inps booted.
  assert (Hearly : List.Forall (fun inp => 0 <= now_ms inp <= POLL_INTERVAL_MS) inps)
    by (repeat (constructor; [unfold POLL_INTERVAL_MS; simpl; lia|]); constructor).
  split; [exact Hearly|].
  destruct (no_fetch_in_first_interval (H := utc_time) config_example 3 sample_ambient
              inps Hearly) as (_ & _ & Hw).
  exact Hw.
Defined.

(** X15: in an iteration that fetches, the render that follows shows
    the outcome at once: after a failed fetch the snapshot is the one from
    before and the bottom line reads "API offline"; after a successful one
    the bottom line is the payload's [bottom_line] (or "All good"), cut to
    22 characters. *)
Theorem loop_renders_fetch_outcome `{TimeLib} (cfg : Config) (inp : LoopInput) (w : World) :
  POLL_INTERVAL_MS < wrap_ulong (now_ms inp - last_poll w) ->
  let after := last_state (world (loop cfg inp w)) in
  (fetch_fails (exchange inp) ->
   after = last_state w /\
   drawn_at 5 (rows_end after + 10) (events (loop cfg inp w)) = ["API offline"%string]) /\
  (forall doc, fetch_parses (exchange inp) doc ->
     drawn_at 5 (rows_end after + 10) (events (loop cfg inp w))
     = [Str.truncate 22 (or_cstr (member "bottom_line" doc) "All good")]).
Proof.
  intros Hopen after. unfold after.
  destruct (loop_run cfg inp w) as [Hrun _].
  destruct (Hrun Hopen) as [-> ->]. cbn [last_state].
  rewrite !drawn_at_app, fetchStatus_trace.
  replace (drawn_at 5 _ (HttpBegin _ :: _)) with (@nil string)
    by (destruct (begin_ok (exchange inp)); reflexivity).
  cbn [app drawn_at]. rewrite !app_nil_r.
  split.
  - intros Hf. destruct (fetchStatus_failed cfg (exchange inp) w Hf) as [Hv Hw].
    rewrite Hv, Hw. cbn [negb]. split; [reflexivity|].
    now destruct (drawScreen_bottom_lines cfg (ambient inp) (last_state w) true w) as [-> _].
  - intros doc Hp.
    destruct (fetchStatus_parsed cfg (exchange inp) doc w Hp) as (Hv & _ & t & _ & Hst).
    rewrite Hv. cbn [negb].
    destruct (drawScreen_bottom_lines cfg (ambient inp)
                (last_state (world (fetchStatus cfg (exchange inp) w))) false
                (world (fetchStatus cfg (exchange inp) w))) as [-> _].
    rewrite Hst. cbn [bottom_line set_server_time].
    now destruct (stored_fields_texts doc (last_state w)) as (-> & _).
Qed.

Lemma loop_renders_fetch_outcome_witness :
  let failing := {| begin_ok := true; status_code := 500; body := ParseError EmptyInput |} in
  let w := world (fetchStatus (H := utc_time) config_example (sample_ok sample_doc)
                    initial_world) in
  let inp := {| now_ms := 60000; exchange := failing; ambient := sample_ambient |} in
  (POLL_INTERVAL_MS < wrap_ulong (now_ms inp - last_poll w) /\ fetch_fails failing) /\
  last_state (world (loop (H := utc_time) config_example inp w)) = last_state w /\
  drawn_at 5 90 (events (loop (H := utc_time) config_example inp w)) = ["API offline"%string].
Proof.
  intros failing w inp.
  assert (Hopen : POLL_INTERVAL_MS < wrap_ulong (now_ms inp - last_poll w))
    by (vm_compute; reflexivity).
  assert (Hf : fetch_fails failing) by (right; left; discriminate).
  split; [exact (conj Hopen Hf)|].
  destruct (loop_renders_fetch_outcome (H := utc_time) config_example inp w Hopen)
    as [Hfail _].
  destruct (Hfail Hf) as [Hst Hdraw].
  split; [exact Hst|].
  rewrite Hst in Hdraw. exact Hdraw.
Defined.

(** X18: every iteration of [loop] sleeps exactly 200 ms, whether it
    fetches or not: a run of [n] iterations spends [200 * n] ms in
    [delay]. *)
Theorem iterate_loop_sleeps `{TimeLib} (cfg : Config) (inps : list LoopInput) (w : World) :
  total_delay (events (iterate_loop cfg inps w)) = 200 * Z.of_nat (length inps).
Proof.
  revert w. induction inps as [|inp inps IH]; intros w; [reflexivity|].
  destruct (iterate_loop_cons cfg inp inps w) as [-> _].
  rewrite total_delay_app, IH.
  assert (Hone : total_delay (events (loop cfg inp w)) = 200).
  { destruct (loop_run cfg inp w) as [Hopen Hshut].
    destruct (Z.lt_ge_cases POLL_INTERVAL_MS (wrap_ulong (now_ms inp - last_poll w)))
      as [Hlt|Hge].
    - destruct (Hopen Hlt) as [-> _].
      rewrite !total_delay_app, fetchStatus_trace.
      destruct (panel_only_quiet _ (drawScreen_panel_only cfg (ambient inp)
                  (last_state (world (fetchStatus cfg (exchange inp) w)))
                  (negb (value (fetchStatus cfg (exchange inp) w)))
                  (world (fetchStatus cfg (exchange inp) w)))) as [-> _].
      destruct (begin_ok (exchange inp)); reflexivity.
    - destruct (Hshut Hge) as [-> _]. reflexivity. }
  rewrite Hone. cbn [length]. lia.
Qed.

Lemma drawScreen_text_area_witness :
  let screen := events (drawScreen (H := utc_time) config_example sample_ambient
                          initial_state true initial_world) in
  (4 < 5 \/ 185 < 4) /\ drawn_at 5 4 screen = [] /\ drawn_at 60 70 screen = [].
Proof.
  intros screen.
  destruct (drawScreen_text_area (H := utc_time) config_example sample_ambient
              initial_state true initial_world) as [Hrows Hcols].
  assert (Hy : 4 < 5 \/ 185 < 4) by (left; lia).
  split; [exact Hy|]. split.
  - exact (Hrows 5 4 Hy).
  - apply (Hcols 60 70); simpl; lia.
Defined.

(** X19: a [server_time] that stops after the date, three groups of
    digits laid out as "Y-M-D" and then anything but a digit or a "T", is
    not accepted: the fetch succeeds and the snapshot's [server_time]
    keeps its previous value. *)
Theorem fetchStatus_rejects_date_only `{TimeLib}
    (cfg : Config) (http : HttpExchange) (doc : Json) (w : World)
    (year mon mday : list nat) (rest : string) :
  fetch_parses http doc ->
  as_cstr (member "server_time" doc)
  = Some (digits_string year ++ String "-" (digits_string mon
          ++ String "-" (digits_string mday ++ rest)))%string ->
  digit_group year -> digit_group mon -> digit_group mday ->
  starts_nondigit rest ->
  (forall r, rest <> String "T" r) ->
  value (fetchStatus cfg http w) = true /\
  server_time (last_state (world (fetchStatus cfg http w))) = server_time (last_state w).
Proof.
  intros Hp Hs Hy Hmo Hd Hrest HT.
  assert (Hscan : fst (Scanf.sscanf
                         (digits_string year ++ String "-" (digits_string mon
                          ++ String "-" (digits_string mday ++ rest)))%string
                         Scanf.server_time_format) = 3).
  { unfold Scanf.sscanf, Scanf.server_time_format.
    repeat (rewrite scan_conversion by (try assumption; reflexivity);
            try rewrite scan_literal).
    cbn [Scanf.scan app].
    destruct rest as [|c r]; [reflexivity|].
    destruct (Ascii.eqb_spec "T"%char c) as [<-|Hne]; [now elim (HT r)|reflexivity]. }
  destruct (fetchStatus_parsed cfg http doc w Hp) as (Hv & _ & t & Ho & ->).
  split; [exact Hv|]. cbn [server_time set_server_time].
  inversion Ho as [Hn|s Hs' Hc|s y mo d h mi se Hs' Hc]; try reflexivity.
  rewrite Hs in Hs'. injection Hs' as <-. rewrite Hc in Hscan. discriminate.
Qed.

Lemma fetchStatus_rejects_date_only_witness :
  let doc := JObject [("server_time", JString "2024-03-05 14:30:00")]%string in
  let w := world (fetchStatus (H := utc_time) config_example (sample_ok sample_doc)
                    initial_world) in
  (fetch_parses (sample_ok doc) doc /\ starts_nondigit " 14:30:00") /\
  server_time (last_state (world (fetchStatus (H := utc_time) config_example
                                    (sample_ok doc) w)))
  = server_time (last_state w).
Proof.
  intros doc w.
  assert (Hp : fetch_parses (sample_ok doc) doc) by now repeat split.
  split; [split; [exact Hp|reflexivity]|].
  refine (proj2 (fetchStatus_rejects_date_only (H := utc_time) config_example
                   (sample_ok doc) doc w [2; 0; 2; 4]%nat [0; 3]%nat [0; 5]%nat
                   " 14:30:00" Hp eq_refl _ _ _ _ _));
    try (split; [discriminate|]; repeat (constructor; [lia|]); constructor).
  - reflexivity.
  - intros r Hr. discriminate Hr.
Defined.
